(** * bookodav: the request handlers of [src/handlers.js]

    A shallow embedding of the six Worker handlers (delete, bulk upload, get,
    put, WebDAV listing, cache dump) and the properties of the specification
    that concern them.

    Representation choices.
    - A JavaScript string is represented by the bytes of its UTF-8 encoding
      (Rocq's [string]).  Every string operation the handlers use searches
      for, or cuts at, an ASCII character ('/', '.', '%'), so it commutes
      with the encoding; indices ([lastIndexOf]) are only ever fed back to
      [substring] on the same string.
    - A JavaScript exception is the [Throw] completion carrying the error's
      [message].
    - [env.MY_BUCKET] is an interface ([Bucket]) over an abstract store
      state; [ctx.waitUntil] appends to the list of pending background
      tasks of the request. *)

From Stdlib Require Import ZArith NArith Ascii DecimalString.
From stdpp Require Import base option list strings gmap.

Local Open Scope Z_scope.

(** ** Completions

    A call either returns a value or throws an error with a message. *)

Inductive completion (A : Type) : Type :=
| Normal (a : A)
| Throw (message : string).
Arguments Normal {A} a.
Arguments Throw {A} message.

(** ** JavaScript string primitives *)

Module JS.

(** [s.startsWith(t)] *)
Fixpoint startsWith (s t : string) {struct t} : bool :=
  match t with
  | EmptyString => true
  | String b t' =>
      match s with
      | EmptyString => false
      | String a s' => if Ascii.eqb a b then startsWith s' t' else false
      end
  end.

(** [s.includes(t)] *)
Fixpoint includes (s t : string) : bool :=
  match s with
  | EmptyString => startsWith EmptyString t
  | String _ s' => startsWith s t || includes s' t
  end.

(** [s.endsWith(t)] *)
Definition endsWith (s t : string) : bool :=
  startsWith (String.rev s) (String.rev t).

(** [s.slice(1)] *)
Definition slice1 (s : string) : string :=
  match s with
  | EmptyString => EmptyString
  | String _ s' => s'
  end.

(** [s.slice(0, -1)] *)
Fixpoint slice0m1 (s : string) : string :=
  match s with
  | EmptyString => EmptyString
  | String a s' =>
      match s' with
      | EmptyString => EmptyString
      | String _ _ => String a (slice0m1 s')
      end
  end.

(** [s.lastIndexOf(c)] for a one-character needle; -1 when absent. *)
Fixpoint lastIndexOf_from (i acc : Z) (c : ascii) (s : string) : Z :=
  match s with
  | EmptyString => acc
  | String a s' =>
      lastIndexOf_from (i + 1) (if Ascii.eqb a c then i else acc) c s'
  end.

Definition lastIndexOf (s : string) (c : ascii) : Z :=
  lastIndexOf_from 0 (-1) c s.

(** [s.substring(0, n)] *)
Fixpoint take (n : nat) (s : string) : string :=
  match n, s with
  | S n', String a s' => String a (take n' s')
  | _, _ => EmptyString
  end.

Definition substring0 (s : string) (idx : Z) : string :=
  take (Z.to_nat idx) s.

(** [s.replace(/^\/+/, "")] *)
Fixpoint stripLeadingSlashes (s : string) : string :=
  match s with
  | EmptyString => EmptyString
  | String a s' => if Ascii.eqb a "/" then stripLeadingSlashes s' else s
  end.

(** [s.split(c)] for a one-character separator; never the empty array. *)
Fixpoint split (c : ascii) (s : string) : list string :=
  match s with
  | EmptyString => [EmptyString]
  | String a s' =>
      if Ascii.eqb a c then EmptyString :: split c s'
      else
        match split c s' with
        | h :: t => String a h :: t
        | [] => [String a EmptyString]
        end
  end.

(** [arr.pop()]: the last element, [undefined] on the empty array. *)
Definition pop (l : list string) : option string := last l.

(** Truthiness of a string value: the empty string is falsy. *)
Definition truthy (s : string) : bool :=
  match s with EmptyString => false | _ => true end.

(** [a || b] where [a] may be [undefined] or a string. *)
Definition or_else (a : option string) (b : string) : string :=
  match a with
  | Some s => if truthy s then s else b
  | None => b
  end.

(** [arr.filter(x => x)] *)
Definition filter_truthy (l : list string) : list string :=
  List.filter truthy l.

(** White space and line terminators of ECMAScript, as UTF-8 sequences at
    the head of a string: U+0009..U+000D, U+0020, U+00A0, U+1680,
    U+2000..U+200A, U+2028, U+2029, U+202F, U+205F, U+3000, U+FEFF. *)
Definition ws1 (a : ascii) : bool :=
  let n := N_of_ascii a in ((9 <=? n) && (n <=? 13) || (n =? 32))%N.

Definition ws2 (a b : ascii) : bool :=
  ((N_of_ascii a =? 194) && (N_of_ascii b =? 160))%N.

Definition ws3 (a b c : ascii) : bool :=
  let x := N_of_ascii a in
  let y := N_of_ascii b in
  let z := N_of_ascii c in
  ((x =? 225) && (y =? 154) && (z =? 128)
   || (x =? 226) && (y =? 128)
        && ((128 <=? z) && (z <=? 138) || (z =? 168) || (z =? 169) || (z =? 175))
   || (x =? 226) && (y =? 129) && (z =? 159)
   || (x =? 227) && (y =? 128) && (z =? 128)
   || (x =? 239) && (y =? 187) && (z =? 191))%N.

(** [s.trimStart()] *)
Fixpoint trimStart (s : string) : string :=
  match s with
  | EmptyString => EmptyString
  | String a s1 =>
      if ws1 a then trimStart s1
      else
        match s1 with
        | EmptyString => s
        | String b s2 =>
            if ws2 a b then trimStart s2
            else
              match s2 with
              | EmptyString => s
              | String c s3 => if ws3 a b c then trimStart s3 else s
              end
        end
  end.

(** The same scan on the reversed string, for [trimEnd]. *)
Fixpoint trimStart_rev (s : string) : string :=
  match s with
  | EmptyString => EmptyString
  | String a s1 =>
      if ws1 a then trimStart_rev s1
      else
        match s1 with
        | EmptyString => s
        | String b s2 =>
            if ws2 b a then trimStart_rev s2
            else
              match s2 with
              | EmptyString => s
              | String c s3 => if ws3 c b a then trimStart_rev s3 else s
              end
        end
  end.

(** [s.trimEnd()] *)
Definition trimEnd (s : string) : string :=
  String.rev (trimStart_rev (String.rev s)).

(** [s.trim()] *)
Definition trim (s : string) : string := trimEnd (trimStart s).

(** [s === ""] *)
Definition isEmpty (s : string) : bool := negb (truthy s).

(** *** Percent decoding and encoding *)

Definition hexval (a : ascii) : option N :=
  let n := N_of_ascii a in
  (if (48 <=? n) && (n <=? 57) then Some (n - 48)
   else if (65 <=? n) && (n <=? 70) then Some (n - 55)
   else if (97 <=? n) && (n <=? 102) then Some (n - 87)
   else None)%N.

(** The octet written by the escape [%hl], if [p h l] is such an escape. *)
Definition escape (p h l : ascii) : option N :=
  if Ascii.eqb p "%" then
    match hexval h, hexval l with
    | Some x, Some y => Some (16 * x + y)%N
    | _, _ => None
    end
  else None.

Definition in_range (lo hi n : N) : bool := ((lo <=? n) && (n <=? hi))%N.

(** Well-formed UTF-8 sequences of two, three and four octets. *)
Definition utf8_2 (a b : N) : bool :=
  in_range 194 223 a && in_range 128 191 b.

Definition utf8_3 (a b c : N) : bool :=
  ((a =? 224)%N && in_range 160 191 b
   || in_range 225 236 a && in_range 128 191 b
   || (a =? 237)%N && in_range 128 159 b
   || in_range 238 239 a && in_range 128 191 b)
  && in_range 128 191 c.

Definition utf8_4 (a b c d : N) : bool :=
  ((a =? 240)%N && in_range 144 191 b
   || in_range 241 243 a && in_range 128 191 b
   || (a =? 244)%N && in_range 128 143 b)
  && in_range 128 191 c && in_range 128 191 d.

Definition URIError : string := "URI malformed".

Definition emit (bytes : list N) (r : completion string) : completion string :=
  match r with
  | Normal s => Normal (fold_right (fun b acc => String (ascii_of_N b) acc) s bytes)
  | Throw m => Throw m
  end.

(** [decodeURIComponent(s)]: every escape is replaced by its octet; an
    octet of 0x80 or more must start a well-formed UTF-8 sequence whose
    other octets are escapes too.  Anything else throws [URIError]. *)
Fixpoint decodeURIComponent (s : string) : completion string :=
  match s with
  | EmptyString => Normal EmptyString
  | String c r =>
      if negb (Ascii.eqb c "%") then emit [N_of_ascii c] (decodeURIComponent r)
      else
        match r with
        | String h1 (String l1 r1) =>
            match escape c h1 l1 with
            | None => Throw URIError
            | Some B =>
                if (B <? 128)%N then emit [B] (decodeURIComponent r1)
                else if (B <? 192)%N || (247 <? B)%N then Throw URIError
                else
                  match r1 with
                  | String p2 (String h2 (String l2 r2)) =>
                      match escape p2 h2 l2 with
                      | None => Throw URIError
                      | Some B2 =>
                          if (B <? 224)%N then
                            if utf8_2 B B2
                            then emit [B; B2] (decodeURIComponent r2)
                            else Throw URIError
                          else
                            match r2 with
                            | String p3 (String h3 (String l3 r3)) =>
                                match escape p3 h3 l3 with
                                | None => Throw URIError
                                | Some B3 =>
                                    if (B <? 240)%N then
                                      if utf8_3 B B2 B3
                                      then emit [B; B2; B3] (decodeURIComponent r3)
                                      else Throw URIError
                                    else
                                      match r3 with
                                      | String p4 (String h4 (String l4 r4)) =>
                                          match escape p4 h4 l4 with
                                          | None => Throw URIError
                                          | Some B4 =>
                                              if utf8_4 B B2 B3 B4
                                              then emit [B; B2; B3; B4]
                                                     (decodeURIComponent r4)
                                              else Throw URIError
                                          end
                                      | _ => Throw URIError
                                      end
                                end
                            | _ => Throw URIError
                            end
                      end
                  | _ => Throw URIError
                  end
            end
        | _ => Throw URIError
        end
  end.

Definition hexdigit (n : N) : ascii :=
  (if n <? 10 then ascii_of_N (48 + n) else ascii_of_N (55 + n))%N.

(** Characters [encodeURI] leaves alone: letters, digits and
    [; / ? : @ & = + $ , # - _ . ! ~ * ' ( )]. *)
Definition uriUnescaped (a : ascii) : bool :=
  let n := N_of_ascii a in
  in_range 97 122 n || in_range 64 90 n || in_range 38 59 n
  || (n =? 33)%N || (n =? 35)%N || (n =? 36)%N || (n =? 61)%N
  || (n =? 63)%N || (n =? 95)%N || (n =? 126)%N.

(** [encodeURI(s)] *)
Fixpoint encodeURI (s : string) : string :=
  match s with
  | EmptyString => EmptyString
  | String a s' =>
      if uriUnescaped a then String a (encodeURI s')
      else
        let n := N_of_ascii a in
        String "%" (String (hexdigit (n / 16)) (String (hexdigit (n mod 16))
          (encodeURI s')))
  end.

(** *** Numbers and dates *)

(** [String(n)] for a non-negative integer. *)
Definition decimal (n : N) : string := NilZero.string_of_uint (N.to_uint n).

Definition pad2 (n : Z) : string :=
  if n <? 10 then "0" +:+ decimal (Z.to_N n) else decimal (Z.to_N n).

Definition pad4 (n : Z) : string :=
  if n <? 10 then "000" +:+ decimal (Z.to_N n)
  else if n <? 100 then "00" +:+ decimal (Z.to_N n)
  else if n <? 1000 then "0" +:+ decimal (Z.to_N n)
  else decimal (Z.to_N n).

Definition msPerDay : Z := 86400000.

(** Year, month (1..12) and day of month of the day [doe] (0..146096) of
    the 400-year era [era]; eras start on 1 March of the years divisible by
    400. *)
Definition civilInEra (era doe : Z) : Z * Z * Z :=
  let yoe := (doe - doe / 1460 + doe / 36524 - doe / 146096) / 365 in
  let doy := doe - (365 * yoe + yoe / 4 - yoe / 100) in
  let mp := (5 * doy + 2) / 153 in
  let d := doy - (153 * mp + 2) / 5 + 1 in
  let m := if mp <? 10 then mp + 3 else mp - 9 in
  (yoe + era * 400 + (if m <=? 2 then 1 else 0), m, d).

(** Year, month and day of month of a day number counted from 1970-01-01
    in the proleptic Gregorian calendar. *)
Definition civil (days : Z) : Z * Z * Z :=
  let z := days + 719468 in
  let era := z / 146097 in
  civilInEra era (z - era * 146097).

Definition weekDayName (w : Z) : string :=
  nth (Z.to_nat w) ["Sun"; "Mon"; "Tue"; "Wed"; "Thu"; "Fri"; "Sat"] "".

Definition monthName (m : Z) : string :=
  nth (Z.to_nat (m - 1))
    ["Jan"; "Feb"; "Mar"; "Apr"; "May"; "Jun";
     "Jul"; "Aug"; "Sep"; "Oct"; "Nov"; "Dec"] "".

(** [new Date(t).toUTCString()] for a time value [t] in milliseconds since
    the epoch. *)
Definition toUTCString (t : Z) : string :=
  let day := t / msPerDay in
  let ms := t mod msPerDay in
  let '(y, m, d) := civil day in
  weekDayName ((day + 4) mod 7) +:+ ", " +:+ pad2 d +:+ " " +:+ monthName m
  +:+ " " +:+ (if y <? 0 then "-" else "") +:+ pad4 (Z.abs y) +:+ " "
  +:+ pad2 (ms / 3600000) +:+ ":" +:+ pad2 (ms / 60000 mod 60) +:+ ":"
  +:+ pad2 (ms / 1000 mod 60) +:+ " GMT".

(** *** Header values *)

(** A header value the [Response] constructor accepts: one that holds no
    NUL, LF or CR; on any other value the constructor throws a
    [TypeError].  This is the check of the Workers runtime, which passes
    text beyond Latin-1 on in its UTF-8 encoding. *)
Definition headerByteOk (a : ascii) : bool :=
  let n := N_of_ascii a in negb ((n =? 0) || (n =? 10) || (n =? 13))%N.

Fixpoint validHeaderValue (v : string) : bool :=
  match v with
  | EmptyString => true
  | String a v' => headerByteOk a && validHeaderValue v'
  end.

Definition invalidHeaderValue : string := "Invalid header value.".

End JS.


(** ** The runtime seen by a handler *)

(** The parsed [request.url]: [href] is the URL string itself. *)
Record URL := { href : string; origin : string; pathname : string }.

Record File := { name : string; content : string }.

(** An entry value of a parsed multi-part form. *)
Inductive FormDataEntryValue :=
| FieldValue (v : string)
| FileValue (file : File).

Record Request := {
  url : URL;
  arrayBuffer : string;
  formData : completion (list (string * FormDataEntryValue))
}.

(** A JavaScript object with string-valued properties, in insertion order. *)
Definition JSObject := list (string * string).

Fixpoint set_prop (k v : string) (o : JSObject) : JSObject :=
  match o with
  | [] => [(k, v)]
  | (k', v') :: o' =>
      if String.eqb k' k then (k', v) :: o' else (k', v') :: set_prop k v o'
  end.

Definition get_prop (k : string) (o : JSObject) : option string :=
  snd <$> List.find (fun kv => String.eqb (fst kv) k) o.

(** [{ ...base, ...ext }] *)
Definition spread (base ext : JSObject) : JSObject :=
  fold_left (fun o kv => set_prop (fst kv) (snd kv) o) ext base.

Record Response := { body : string; status : Z; headers : JSObject }.

(** What [./utils] and the Workers runtime provide: the MIME table with its
    [default] entry, the CORS headers, [String.prototype.toLowerCase], and
    [new URL(ref, base).toString()], which throws on an invalid URL. *)
Record Platform := {
  mimeTypes : string -> option string;
  mimeTypes_default : string;
  corsHeaders : JSObject;
  toLowerCase : string -> string;
  newURL : string -> string -> completion string
}.

(** An object of a bucket listing. *)
Record R2Object := { key : string; objSize : N; uploaded : Z }.

(** [env.MY_BUCKET] over a store state [S].  [bucket_get] yields [None] for
    JavaScript's [null]; [bucket_list] yields the [objects] property of the
    listing result, [None] when it is undefined. *)
Record Bucket (S : Type) := {
  bucket_get : string -> S -> completion (option string) * S;
  bucket_put : string -> string -> string -> S -> completion unit * S;
  bucket_delete : string -> S -> completion unit * S;
  bucket_list : string -> S -> completion (option (list R2Object)) * S
}.
Arguments bucket_get {S}.
Arguments bucket_put {S}.
Arguments bucket_delete {S}.
Arguments bucket_list {S}.

Inductive BucketCall :=
| CallGet (k : string)
| CallPut (k data contentType : string)
| CallDelete (k : string)
| CallList (prefix : string).

(** The argument of [cache.delete]: [new Request(url, { cf: { cacheTtl } })]. *)
Record CacheKey := { cacheUrl : string; cacheTtl : option Z }.

(** The state a handler acts on: the store, the calls made to it so far, and
    the [cache.delete] promises handed to [ctx.waitUntil], which nobody
    awaits. *)
Record World (S : Type) := {
  store : S;
  calls : list BucketCall;
  pending : list CacheKey
}.
Arguments store {S}.
Arguments calls {S}.
Arguments pending {S}.

(** ** The handler monad *)

Definition M (S A : Type) : Type := World S -> completion A * World S.

Definition ret {S A} (a : A) : M S A := fun w => (Normal a, w).

Definition bind {S A B} (m : M S A) (f : A -> M S B) : M S B :=
  fun w =>
    match m w with
    | (Normal a, w') => f a w'
    | (Throw e, w') => (Throw e, w')
    end.

Definition lift {S A} (c : completion A) : M S A := fun w => (c, w).

(** [try { m } catch (error) { h error.message }] *)
Definition tryCatch {S A} (m : M S A) (h : string -> M S A) : M S A :=
  fun w =>
    match m w with
    | (Normal a, w') => (Normal a, w')
    | (Throw e, w') => h e w'
    end.

Notation "x <- c1 ;; c2" := (bind c1 (fun x => c2))
  (at level 100, c1 at next level, right associativity).

Section Env.

Context {S : Type}.
Variable B : Bucket S.

Definition called (c : BucketCall) (s : S) (w : World S) : World S :=
  {| store := s; calls := calls w ++ [c]; pending := pending w |}.

(** [await env.MY_BUCKET.get(k)] and its siblings. *)
Definition MY_BUCKET_get (k : string) : M S (option string) :=
  fun w => let (r, s) := bucket_get B k (store w) in (r, called (CallGet k) s w).

Definition MY_BUCKET_put (k data contentType : string) : M S unit :=
  fun w =>
    let (r, s) := bucket_put B k data contentType (store w) in
    (r, called (CallPut k data contentType) s w).

Definition MY_BUCKET_delete (k : string) : M S unit :=
  fun w =>
    let (r, s) := bucket_delete B k (store w) in (r, called (CallDelete k) s w).

Definition MY_BUCKET_list (prefix : string) : M S (option (list R2Object)) :=
  fun w =>
    let (r, s) := bucket_list B prefix (store w) in
    (r, called (CallList prefix) s w).

(** [ctx.waitUntil(cache.delete(cacheKey))] *)
Definition waitUntil_cache_delete (cacheKey : CacheKey) : M S unit :=
  fun w =>
    (Normal tt,
     {| store := store w; calls := calls w;
        pending := pending w ++ [cacheKey] |}).

End Env.

(** ** JSON.stringify on an array of flat objects *)

Definition DQ : string := String (ascii_of_N 34) EmptyString.
Definition LF : string := String (ascii_of_N 10) EmptyString.
Definition BSL : string := String (ascii_of_N 92) EmptyString.

Definition lowerhex (n : N) : ascii :=
  (if n <? 10 then ascii_of_N (48 + n) else ascii_of_N (87 + n))%N.

Definition JSON_escape (a : ascii) : string :=
  let n := N_of_ascii a in
  (if n =? 34 then BSL +:+ DQ
   else if n =? 92 then BSL +:+ BSL
   else if n =? 8 then BSL +:+ "b"
   else if n =? 9 then BSL +:+ "t"
   else if n =? 10 then BSL +:+ "n"
   else if n =? 12 then BSL +:+ "f"
   else if n =? 13 then BSL +:+ "r"
   else if n <? 32 then
     BSL +:+ "u00" +:+ String (lowerhex (n / 16)) (String (lowerhex (n mod 16)) "")
   else String a "")%N.

Fixpoint JSON_chars (s : string) : string :=
  match s with
  | EmptyString => EmptyString
  | String a s' => JSON_escape a +:+ JSON_chars s'
  end.

Definition JSON_quote (s : string) : string := DQ +:+ JSON_chars s +:+ DQ.

Fixpoint join (sep : string) (l : list string) : string :=
  match l with
  | [] => ""
  | [x] => x
  | x :: l' => x +:+ sep +:+ join sep l'
  end.

Definition JSON_object (o : JSObject) : string :=
  "{" +:+ join "," (map (fun kv => JSON_quote (fst kv) +:+ ":" +:+ JSON_quote (snd kv)) o)
  +:+ "}".

Definition JSON_stringify (results : list JSObject) : string :=
  "[" +:+ join "," (map JSON_object results) +:+ "]".

(** ** The handlers *)

Section Handlers.

Context {S : Type}.
Variable P : Platform.
Variable B : Bucket S.

(** [filename.split(".").pop().toLowerCase()] *)
Definition extensionOf (filename : string) : string :=
  toLowerCase P (default "" (JS.pop (JS.split "." filename))).

(** handlers.js, lines 3-28 *)
Definition handleDeleteFile (request : Request) : M S Response :=
  let url := url request in
  filePath <- lift (JS.decodeURIComponent (JS.slice1 (pathname url))) ;;
  if JS.includes filePath ".." then
    ret {| body := "Invalid path"; status := 400; headers := [] |}
  else
    tryCatch
      (_ <- MY_BUCKET_delete B filePath ;;
       let dir :=
         if JS.includes filePath "/" then
           let idx := JS.lastIndexOf filePath "/" in
           if idx >? 0 then "/" +:+ JS.substring0 filePath idx else "/"
         else "/" in
       listingUrl <- lift (newURL P dir (origin url)) ;;
       let cacheKey := {| cacheUrl := listingUrl; cacheTtl := Some 604800 |} in
       _ <- waitUntil_cache_delete cacheKey ;;
       ret {| body := "File deleted successfully"; status := 200;
              headers := corsHeaders P |})
      (fun message =>
         ret {| body := "Failed to delete file: " +:+ message; status := 500;
                headers := corsHeaders P |}).

(** The body of the [for] loop of [handleMultpleUploads] (lines 33-57),
    with the [results] array threaded through; a [return] inside the loop
    ends the handler. *)
Fixpoint uploadEntries (request : Request)
    (entries : list (string * FormDataEntryValue))
    (results : list JSObject) : M S Response :=
  match entries with
  | [] =>
      ret {| body := JSON_stringify results; status := 200;
             headers := set_prop "Content-Type" "application/json"
                          (spread [] (corsHeaders P)) |}
  | (fieldName, FieldValue _) :: rest => uploadEntries request rest results
  | (fieldName, FileValue file) :: rest =>
      let filename := name file in
      let extension := extensionOf filename in
      let contentType := JS.or_else (mimeTypes P extension) (mimeTypes_default P) in
      let data := content file in
      let sanitizedFilename := JS.stripLeadingSlashes filename in
      if JS.includes filename ".." then
        ret {| body := "Invalid path"; status := 400; headers := [] |}
      else if negb (JS.truthy sanitizedFilename) then
        ret {| body := "Invalid filename"; status := 400; headers := [] |}
      else
        (* one [try] block: the [catch] sees the entry already pushed *)
        results' <-
          tryCatch
            (_ <- MY_BUCKET_put B sanitizedFilename data contentType ;;
             let results1 :=
               results ++ [[("sanitizedFilename", sanitizedFilename);
                            ("status", "success");
                            ("contentType", contentType)]] in
             tryCatch
               (listingUrl <- lift (newURL P "/" (href (url request))) ;;
                let cacheKey :=
                  {| cacheUrl := listingUrl; cacheTtl := Some 604800 |} in
                _ <- waitUntil_cache_delete cacheKey ;;
                ret results1)
               (fun message =>
                  ret (results1 ++ [[("filename", filename);
                                     ("status", "failed");
                                     ("error", message)]])))
            (fun message =>
               ret (results ++ [[("filename", filename);
                                 ("status", "failed");
                                 ("error", message)]])) ;;
        uploadEntries request rest results'
  end.

(** handlers.js, lines 30-62 *)
Definition handleMultpleUploads (request : Request) : M S Response :=
  entries <- lift (formData request) ;;
  uploadEntries request entries [].

(** handlers.js, lines 64-88.  Of the header values the handlers give to
    [new Response], only the [Content-Disposition] of line 85 holds text
    of the request; the constructor throws on it when the decoded file
    name holds NUL, LF or CR.  The values that come from [./utils] (CORS
    headers, MIME types) are taken to be valid header values. *)
Definition handleGetFile (request : Request) : M S Response :=
  let path := pathname (url request) in
  filename <- lift (JS.decodeURIComponent (JS.slice1 path)) ;;
  if String.eqb path "/" then
    ret {| body := "Use /dav for WebDAV"; status := 302;
           headers := spread [("Location", "/dav")] (corsHeaders P) |}
  else
    file <- MY_BUCKET_get B filename ;;
    match file with
    | None =>
        ret {| body := "File not found"; status := 404;
               headers := corsHeaders P |}
    | Some file_body =>
        let extension := extensionOf filename in
        let contentType :=
          JS.or_else (mimeTypes P extension) (mimeTypes_default P) in
        let contentDisposition :=
          "inline; filename=" +:+ DQ +:+ filename +:+ DQ in
        if JS.validHeaderValue contentDisposition then
          ret {| body := file_body; status := 200;
                 headers :=
                   set_prop "Content-Disposition" contentDisposition
                     (set_prop "Content-Type" contentType
                        (spread [] (corsHeaders P))) |}
        else lift (Throw JS.invalidHeaderValue)
    end.

(** The validation at the head of [handlePutFile] (lines 92-98): the
    storage key, or [None] when the request is answered 400. *)
Definition putFilePath (raw : string) : completion (option string) :=
  match JS.decodeURIComponent raw with
  | Throw m => Throw m
  | Normal filePath =>
      if JS.includes filePath ".." || JS.isEmpty (JS.trim filePath)
      then Normal None
      else Normal (Some (JS.stripLeadingSlashes filePath))
  end.

(** handlers.js, lines 90-116 *)
Definition handlePutFile (request : Request) : M S Response :=
  let url := url request in
  checked <- lift (putFilePath (pathname url)) ;;
  match checked with
  | None =>
      ret {| body := "Invalid path"; status := 400; headers := corsHeaders P |}
  | Some filePath =>
      tryCatch
        (let data := arrayBuffer request in
         let extension := extensionOf filePath in
         let contentType :=
           JS.or_else (mimeTypes P extension) "application/octet-stream" in
         _ <- MY_BUCKET_put B filePath data contentType ;;
         listingUrl <- lift (newURL P "/" (href url)) ;;
         let cacheKey := {| cacheUrl := listingUrl; cacheTtl := None |} in
         _ <- waitUntil_cache_delete cacheKey ;;
         ret {| body := "File uploaded successfully"; status := 201;
                headers := corsHeaders P |})
        (fun message =>
           ret {| body := "Failed to upload file: " +:+ message; status := 500;
                  headers := corsHeaders P |})
  end.

(** The [response] element of the collection itself (lines 137-148). *)
Definition collectionResponse (path : string) : string :=
  "  <D:response>" +:+ LF +:+
  "    <D:href>" +:+ JS.encodeURI path +:+ "</D:href>" +:+ LF +:+
  "    <D:propstat>" +:+ LF +:+
  "      <D:prop>" +:+ LF +:+
  "        <D:resourcetype><D:collection/></D:resourcetype>" +:+ LF +:+
  "        <D:displayname>" +:+
  (if String.eqb path "/" then "root"
   else default "" (JS.pop (JS.split "/" path))) +:+
  "</D:displayname>" +:+ LF +:+
  "        <D:creationdate>2024-01-01T00:00:00Z</D:creationdate>" +:+ LF +:+
  "        <D:getlastmodified>Mon, 01 Jan 2024 00:00:00 GMT</D:getlastmodified>"
  +:+ LF +:+
  "      </D:prop>" +:+ LF +:+
  "      <D:status>HTTP/1.1 200 OK</D:status>" +:+ LF +:+
  "    </D:propstat>" +:+ LF +:+
  "  </D:response>".

(** What one turn of the loop appends to [xmlResponse] (lines 152-167). *)
Definition objectResponse (obj : R2Object) : string :=
  let objPath := "/" +:+ key obj in
  let isFolder := JS.endsWith (key obj) "/" in
  LF +:+
  "  <D:response>" +:+ LF +:+
  "    <D:href>" +:+ JS.encodeURI objPath +:+ "</D:href>" +:+ LF +:+
  "    <D:propstat>" +:+ LF +:+
  "      <D:prop>" +:+ LF +:+
  "        " +:+
  (if isFolder then "<D:resourcetype><D:collection/></D:resourcetype>"
   else "<D:resourcetype/>") +:+ LF +:+
  "        <D:displayname>" +:+
  JS.or_else (JS.pop (JS.filter_truthy (JS.split "/" (key obj)))) (key obj) +:+
  "</D:displayname>" +:+ LF +:+
  "        <D:getcontentlength>" +:+ JS.decimal (objSize obj) +:+
  "</D:getcontentlength>" +:+ LF +:+
  "        <D:getlastmodified>" +:+ JS.toUTCString (uploaded obj) +:+
  "</D:getlastmodified>" +:+ LF +:+
  "      </D:prop>" +:+ LF +:+
  "      <D:status>HTTP/1.1 200 OK</D:status>" +:+ LF +:+
  "    </D:propstat>" +:+ LF +:+
  "  </D:response>".

Definition xmlDeclaration : string :=
  "<?xml version=" +:+ DQ +:+ "1.0" +:+ DQ +:+ " encoding=" +:+ DQ +:+ "utf-8"
  +:+ DQ +:+ " ?>".

Definition multistatusOpen : string :=
  xmlDeclaration +:+ LF +:+ "<D:multistatus xmlns:D=" +:+ DQ +:+ "DAV:" +:+ DQ
  +:+ ">" +:+ LF.

Definition multistatusClose : string := LF +:+ "</D:multistatus>".

(** The path normalisation of [handleFileList] (lines 123-124). *)
Definition normalizePath (path : string) : string :=
  let path := if negb (JS.startsWith path "/") then "/" +:+ path else path in
  if JS.endsWith path "/" && negb (String.eqb path "/")
  then JS.slice0m1 path else path.

(** The store prefix (lines 128-129). *)
Definition listPrefix (path : string) : string :=
  let prefix := if String.eqb path "/" then "" else JS.slice1 path in
  if JS.truthy prefix && negb (JS.endsWith prefix "/")
  then prefix +:+ "/" else prefix.

(** handlers.js, lines 118-187 *)
Definition handleFileList (request : Request) : M S Response :=
  let url := url request in
  let path := normalizePath (pathname url) in
  tryCatch
    (let prefix := listPrefix path in
     listResult <- MY_BUCKET_list B prefix ;;
     let objects := default [] listResult in
     let xmlResponse := multistatusOpen +:+ collectionResponse path in
     let xmlResponse :=
       fold_left (fun xml obj => xml +:+ objectResponse obj) objects
         xmlResponse in
     let xmlResponse := xmlResponse +:+ multistatusClose in
     ret {| body := xmlResponse; status := 207;
            headers :=
              set_prop "DAV" "1, 2"
                (set_prop "Content-Type" "application/xml; charset=utf-8"
                   (spread [] (corsHeaders P))) |})
    (fun message =>
       ret {| body :=
                xmlDeclaration +:+ "<D:error xmlns:D=" +:+ DQ +:+ "DAV:" +:+ DQ
                +:+ ">" +:+ message +:+ "</D:error>";
              status := 500;
              headers :=
                set_prop "Content-Type" "application/xml"
                  (spread [] (corsHeaders P)) |}).

(** handlers.js, lines 189-200 *)
Definition dumpCache (request : Request) : M S Response :=
  let url := url request in
  tryCatch
    (listingUrl <- lift (newURL P "/" (origin url)) ;;
     let cacheKey := {| cacheUrl := listingUrl; cacheTtl := Some 604800 |} in
     _ <- waitUntil_cache_delete cacheKey ;;
     ret {| body := "cache deleted successfully"; status := 200;
            headers := corsHeaders P |})
    (fun message =>
       ret {| body := "Failed to delete cache: " +:+ message; status := 500;
              headers := corsHeaders P |}).

End Handlers.

(** ** A reference runtime for concrete runs *)

(** An in-memory bucket: a finite map from keys to stored objects, a list
    of keys the store refuses to write, and the time of the next upload. *)
Record StoredObject := {
  so_content : string;
  so_contentType : string;
  so_uploaded : Z
}.

Record MemStore := {
  objects : gmap string StoredObject;
  refused : list string;
  clock : Z
}.

Definition mem_put (k data contentType : string) (s : MemStore)
  : completion unit * MemStore :=
  if bool_decide (k ∈ refused s) then (Throw "store unavailable", s)
  else
    (Normal tt,
     {| objects :=
          <[k := {| so_content := data; so_contentType := contentType;
                    so_uploaded := clock s |}]> (objects s);
        refused := refused s;
        clock := clock s |}).

Definition mem_list (prefix : string) (s : MemStore) : list R2Object :=
  map (fun kv =>
         {| key := fst kv;
            objSize := N.of_nat (String.length (so_content (snd kv)));
            uploaded := so_uploaded (snd kv) |})
      (List.filter (fun kv => JS.startsWith (fst kv) prefix)
         (map_to_list (objects s))).

Definition memBucket : Bucket MemStore := {|
  bucket_get := fun k s => (Normal (so_content <$> objects s !! k), s);
  bucket_put := mem_put;
  bucket_delete := fun k s =>
    (Normal tt,
     {| objects := delete k (objects s); refused := refused s;
        clock := clock s |});
  bucket_list := fun prefix s => (Normal (Some (mem_list prefix s)), s)
|}.

Definition asciiLower (a : ascii) : ascii :=
  let n := N_of_ascii a in
  if JS.in_range 65 90 n then ascii_of_N (n + 32) else a.

Fixpoint lowerASCII (s : string) : string :=
  match s with
  | EmptyString => EmptyString
  | String a s' => String (asciiLower a) (lowerASCII s')
  end.

(** A runtime that knows two MIME types and resolves a path-absolute
    reference against a base by appending it to the base's scheme and
    authority; a reference that starts with two slashes is read as the URL
    constructor reads it, as scheme-relative: the slashes are skipped, what
    follows up to the next slash is the authority (none is an error), and
    the rest, or [/], is the path.  Enough for references and bases made of
    unreserved ASCII characters and without dot segments. *)
Definition refOrigin (base : string) : string :=
  match JS.split "/" base with
  | scheme :: _ :: authority :: _ => scheme +:+ "//" +:+ authority
  | _ => base
  end.

Definition refScheme (base : string) : string :=
  match JS.split "/" base with
  | scheme :: _ => scheme
  | [] => base
  end.

Fixpoint untilSlash (s : string) : string * string :=
  match s with
  | EmptyString => (EmptyString, EmptyString)
  | String a s' =>
      if Ascii.eqb a "/" then (EmptyString, s)
      else let (authority, path) := untilSlash s' in (String a authority, path)
  end.

Definition refResolve (ref base : string) : completion string :=
  if JS.startsWith ref "//" then
    let (authority, path) := untilSlash (JS.stripLeadingSlashes ref) in
    if JS.truthy authority then
      Normal (refScheme base +:+ "//" +:+ authority
              +:+ (if JS.truthy path then path else "/"))
    else Throw "Invalid URL"
  else Normal (refOrigin base +:+ ref).

Definition refPlatform : Platform := {|
  mimeTypes := fun ext =>
    if String.eqb ext "txt" then Some "text/plain"
    else if String.eqb ext "png" then Some "image/png"
    else None;
  mimeTypes_default := "application/octet-stream";
  corsHeaders := [("Access-Control-Allow-Origin", "*")];
  toLowerCase := lowerASCII;
  newURL := refResolve
|}.

Definition emptyStore : MemStore :=
  {| objects := ∅; refused := []; clock := 1704067200000 |}.

Definition freshWorld {S} (s : S) : World S :=
  {| store := s; calls := []; pending := [] |}.

Definition mkRequest (base path : string) : Request :=
  {| url := {| href := base +:+ path; origin := base; pathname := path |};
     arrayBuffer := "data";
     formData := Throw "Unsupported content type" |}.

(** * Vocabulary of the statements

    Nothing below is part of the handlers: these are the answers, requests,
    stores and predicates the properties are stated with. *)

(** The 400 answer of the traversal checks. *)
Definition invalidPath (hs : JSObject) : Response :=
  {| body := "Invalid path"; status := 400; headers := hs |}.

(** A multi-part POST whose form holds the given files, in order. *)
Definition uploadRequest (base : string) (files : list File) : Request :=
  {| url := {| href := base +:+ "/upload"; origin := base;
               pathname := "/upload" |};
     arrayBuffer := "";
     formData := Normal (map (fun f => ("files", FileValue f)) files) |}.

(** ** Bulk upload, item by item *)

Section BulkModel.

Context {S : Type}.
Variable P : Platform.
Variable B : Bucket S.
Variable root : string.

(** The loop goes on past a file whose name has no ".." and is not empty
    once its leading slashes are gone. *)
Definition acceptedName (f : File) : bool :=
  negb (JS.includes (name f) "..") && JS.truthy (JS.stripLeadingSlashes (name f)).

(** The file-bearing entries of a form, in order. *)
Fixpoint fileItems (entries : list (string * FormDataEntryValue)) : list File :=
  match entries with
  | [] => []
  | (_, FileValue f) :: rest => f :: fileItems rest
  | (_, FieldValue _) :: rest => fileItems rest
  end.

(** The content type, the store call and the two kinds of entry of the
    response array that the loop body builds for a file. *)
Definition contentTypeOf (f : File) : string :=
  JS.or_else (mimeTypes P (extensionOf P (name f))) (mimeTypes_default P).

Definition putCall (f : File) : BucketCall :=
  CallPut (JS.stripLeadingSlashes (name f)) (content f) (contentTypeOf f).

Definition successEntry (f : File) : JSObject :=
  [("sanitizedFilename", JS.stripLeadingSlashes (name f));
   ("status", "success"); ("contentType", contentTypeOf f)].

Definition failedEntry (f : File) (message : string) : JSObject :=
  [("filename", name f); ("status", "failed"); ("error", message)].

(** The eviction the loop body schedules: always the root listing. *)
Definition rootEviction : CacheKey :=
  {| cacheUrl := root; cacheTtl := Some 604800 |}.

(** Storing the files one after the other, each on its own: the entry
    reported for each, and the world afterwards.  A file the store takes
    adds one pending eviction of the root listing; a file the store
    refuses adds none; nothing is ever undone. *)
Fixpoint storeEach (files : list File) (w : World S) : list JSObject * World S :=
  match files with
  | [] => ([], w)
  | f :: fs =>
      match bucket_put B (JS.stripLeadingSlashes (name f)) (content f)
              (contentTypeOf f) (store w) with
      | (Normal _, s') =>
          let (es, w') :=
            storeEach fs
              {| store := s'; calls := calls w ++ [putCall f];
                 pending := pending w ++ [rootEviction] |} in
          (successEntry f :: es, w')
      | (Throw message, s') =>
          let (es, w') :=
            storeEach fs
              {| store := s'; calls := calls w ++ [putCall f];
                 pending := pending w |} in
          (failedEntry f message :: es, w')
      end
  end.

(** What an entry of the response array says about its file. *)
Definition reports (f : File) (e : JSObject) : Prop :=
  e = successEntry f \/ exists message, e = failedEntry f message.

(** An entry whose [status] is "success". *)
Definition succeeded (e : JSObject) : bool :=
  match get_prop "status" e with
  | Some s => String.eqb s "success"
  | None => false
  end.

End BulkModel.

(** The headers of the 200 answer of the bulk upload. *)
Definition bulkHeaders (P : Platform) : JSObject :=
  set_prop "Content-Type" "application/json" (spread [] (corsHeaders P)).

(** Three files, and a store that refuses the given keys. *)
Definition threeFiles : list File :=
  [{| name := "a.txt"; content := "one" |};
   {| name := "b.txt"; content := "two" |};
   {| name := "c.png"; content := "three" |}].

Definition refusing (keys : list string) : MemStore :=
  {| objects := ∅; refused := keys; clock := 1704067200000 |}.

(** ** Listings *)

(** An element of the DAV namespace with text content. *)
Definition element (tag text : string) : string :=
  "<D:" +:+ tag +:+ ">" +:+ text +:+ "</D:" +:+ tag +:+ ">".

(** The concatenation of a list of strings. *)
Definition concatAll (l : list string) : string :=
  fold_right String.append "" l.

(** How many times [t] occurs in [s]. *)
Fixpoint occurrences (s t : string) : nat :=
  match s with
  | EmptyString => 0
  | String _ s' => (if JS.startsWith s t then 1 else 0) + occurrences s' t
  end.

(** A run of [n] slashes. *)
Fixpoint slashes (n : nat) : string :=
  match n with
  | O => ""
  | Datatypes.S n' => String "/" (slashes n')
  end.


(** The headers of the 207 answer. *)
Definition listingHeaders (P : Platform) : JSObject :=
  set_prop "DAV" "1, 2"
    (set_prop "Content-Type" "application/xml; charset=utf-8"
       (spread [] (corsHeaders P))).

(** The reference store of the example of the specification: a file
    [x/a.txt] of ten bytes and a folder marker [x/sub/]. *)
Definition exampleStore : MemStore :=
  {| objects :=
       <["x/a.txt" := {| so_content := "0123456789";
                         so_contentType := "text/plain";
                         so_uploaded := 1704067200000 |}]>
         (<["x/sub/" := {| so_content := "";
                           so_contentType := "application/octet-stream";
                           so_uploaded := 951782400000 |}]> ∅);
     refused := [];
     clock := 1704067200000 |}.

(** The body of the answer of a run, empty when the run threw. *)
Definition bodyOf (r : completion Response * World MemStore) : string :=
  match fst r with
  | Normal response => body response
  | Throw _ => ""
  end.

(** ** HTTP dates *)

Definition weekDays : list string :=
  ["Sun"; "Mon"; "Tue"; "Wed"; "Thu"; "Fri"; "Sat"].

Definition months : list string :=
  ["Jan"; "Feb"; "Mar"; "Apr"; "May"; "Jun";
   "Jul"; "Aug"; "Sep"; "Oct"; "Nov"; "Dec"].

Definition digit (n : Z) : ascii := ascii_of_N (48 + Z.to_N n).

(** Exactly two, and exactly four, decimal digits. *)
Definition digits2 (n : Z) : string :=
  String (digit (n / 10)) (String (digit (n mod 10)) "").

Definition digits4 (n : Z) : string :=
  String (digit (n / 1000)) (String (digit (n / 100 mod 10))
    (String (digit (n / 10 mod 10)) (String (digit (n mod 10)) ""))).

(** [f] holds on the [2^k] integers from [lo] on. *)
Fixpoint allRange (k : nat) (lo : Z) (f : Z -> bool) : bool :=
  match k with
  | O => f lo
  | Datatypes.S k' => allRange k' lo f && allRange k' (lo + 2 ^ Z.of_nat k') f
  end.

(** Below 100, and below 10000, the padded decimal of the runtime is the
    fixed-width one. *)
Definition pad2_ok (n : Z) : bool :=
  (100 <=? n) || String.eqb (JS.pad2 n) (digits2 n).

Definition pad4_ok (n : Z) : bool :=
  (10000 <=? n) || String.eqb (JS.pad4 n) (digits4 n).

(** What is needed of a day of an era: a month of 1..12, a day of 1..31,
    a year of the era within 0..400, and the two bounds that place
    1970-01-01 and 9999-12-31. *)
Definition era_ok (doe : Z) : bool :=
  (146097 <=? doe)
  || let '(y, m, d) := JS.civilInEra 0 doe in
     (1 <=? m) && (m <=? 12) && (1 <=? d) && (d <=? 31)
     && (0 <=? y) && (y <=? 400)
     && ((doe <? 135080) || (370 <=? y))
     && ((146037 <=? doe) || (y <=? 399)).

(** The fixed-width date of HTTP (RFC 1123): day name, two-digit day,
    month name, four-digit year, two-digit hours, minutes and seconds, and
    "GMT". *)
Definition httpDate (text : string) : Prop :=
  exists wd mon d y h mi s,
    In wd weekDays /\ In mon months
    /\ 1 <= d <= 31 /\ 1970 <= y <= 9999
    /\ 0 <= h < 24 /\ 0 <= mi < 60 /\ 0 <= s < 60
    /\ text
       = wd +:+ ", " +:+ digits2 d +:+ " " +:+ mon +:+ " " +:+ digits4 y
         +:+ " " +:+ digits2 h +:+ ":" +:+ digits2 mi +:+ ":" +:+ digits2 s
         +:+ " GMT".

(** ** Paths and keys *)

(** [r] begins with two hexadecimal digits. *)
Definition startsWithHexPair (r : string) : bool :=
  match r with
  | String h (String l _) =>
      match JS.hexval h, JS.hexval l with
      | Some _, Some _ => true
      | _, _ => false
      end
  | _ => false
  end.

(** Every ['%'] of [s] is followed by two hexadecimal digits. *)
Fixpoint escapesOk (s : string) : bool :=
  match s with
  | EmptyString => true
  | String c r =>
      (if Ascii.eqb c "%" then startsWithHexPair r else true) && escapesOk r
  end.

(** The keys whose listed [href] a URL parser reads back unchanged: no
    leading slash (the [href] would start with two slashes and name a
    host), no ['?'] and no ['#'] (which [encodeURI] leaves and a parser
    takes for the start of the query or of the fragment), and no segment
    that is a dot or two dots (which a parser resolves). *)
Definition survivesURLParser (k : string) : bool :=
  negb (JS.startsWith k "/")
  && negb (JS.includes k "?")
  && negb (JS.includes k "#")
  && forallb (fun segment =>
                negb (String.eqb segment "." || String.eqb segment ".."))
       (JS.split "/" k).

(** A store that, once a put of [data] under [k] has succeeded, answers a
    get of [k] with [data]; and that, once a delete of [k] has succeeded,
    answers a get of [k] with [null]. *)
Definition readsItsWrites {S : Type} (B : Bucket S) : Prop :=
  forall k data contentType s s',
    bucket_put B k data contentType s = (Normal tt, s') ->
    fst (bucket_get B k s') = Normal (Some data).

Definition forgetsItsDeletes {S : Type} (B : Bucket S) : Prop :=
  forall k s s',
    bucket_delete B k s = (Normal tt, s') ->
    fst (bucket_get B k s') = Normal None.

(** A runtime whose URL constructor always throws. *)
Definition noURLPlatform : Platform := {|
  mimeTypes := mimeTypes refPlatform;
  mimeTypes_default := mimeTypes_default refPlatform;
  corsHeaders := corsHeaders refPlatform;
  toLowerCase := toLowerCase refPlatform;
  newURL := fun _ _ => Throw "Invalid URL"
|}.

(** A bucket whose every call throws. *)
Definition brokenBucket : Bucket unit := {|
  bucket_get := fun _ s => (Throw "store unavailable", s);
  bucket_put := fun _ _ _ s => (Throw "store unavailable", s);
  bucket_delete := fun _ s => (Throw "store unavailable", s);
  bucket_list := fun _ s => (Throw "store unavailable", s)
|}.

(** ** Bulk upload, whatever the names *)

(** The file items the loop stores before it meets a name it rejects, and
    that first rejected item, if any. *)
Fixpoint acceptedPrefix (files : list File) : list File :=
  match files with
  | [] => []
  | f :: fs => if acceptedName f then f :: acceptedPrefix fs else []
  end.

Fixpoint firstRejected (files : list File) : option File :=
  match files with
  | [] => None
  | f :: fs => if acceptedName f then firstRejected fs else Some f
  end.

(** The 400 answer for a rejected name (lines 41-44). *)
Definition rejection (f : File) : Response :=
  {| body := if JS.includes (name f) ".." then "Invalid path"
             else "Invalid filename";
     status := 400; headers := [] |}.

(** ** Well-formed UTF-8 *)

(** The bytes of [s] are a sequence of well-formed UTF-8 characters, by
    the same tables as [decodeURIComponent]. *)
Fixpoint isWellFormed (s : string) : bool :=
  match s with
  | EmptyString => true
  | String a r =>
      if (N_of_ascii a <? 128)%N then isWellFormed r
      else
        match r with
        | String b r2 =>
            if JS.utf8_2 (N_of_ascii a) (N_of_ascii b) then isWellFormed r2
            else
              match r2 with
              | String c r3 =>
                  if JS.utf8_3 (N_of_ascii a) (N_of_ascii b) (N_of_ascii c)
                  then isWellFormed r3
                  else
                    match r3 with
                    | String d r4 =>
                        JS.utf8_4 (N_of_ascii a) (N_of_ascii b) (N_of_ascii c)
                          (N_of_ascii d)
                        && isWellFormed r4
                    | EmptyString => false
                    end
              | EmptyString => false
              end
        | EmptyString => false
        end
  end.

(** Requests and files for concrete runs. *)
Definition putRequest (path data : string) : Request :=
  {| url := {| href := "http://h" +:+ path; origin := "http://h";
               pathname := path |};
     arrayBuffer := data;
     formData := Throw "Unsupported content type" |}.

Definition formRequest (entries : list (string * FormDataEntryValue)) : Request :=
  {| url := {| href := "http://h/upload"; origin := "http://h";
               pathname := "/upload" |};
     arrayBuffer := "";
     formData := Normal entries |}.

(** * Properties *)

(** ** Facts about the string primitives *)

#[local] Arguments String.append !s1 s2 : simpl nomatch.

Section StringFacts.

Lemma app_empty_r (s : string) : s +:+ "" = s.
Proof. induction s as [|a s IH]; simpl; [reflexivity | now rewrite IH]. Qed.

Lemma app_assoc_str (s t u : string) : (s +:+ t) +:+ u = s +:+ t +:+ u.
Proof. induction s as [|a s IH]; simpl; [reflexivity | now rewrite IH]. Qed.

Lemma startsWith_app (t r : string) : JS.startsWith (t +:+ r) t = true.
Proof.
  induction t as [|b t IH]; simpl; [reflexivity |].
  now rewrite Ascii.eqb_refl.
Qed.

Lemma startsWith_inv (s t : string) :
  JS.startsWith s t = true -> exists r, s = t +:+ r.
Proof.
  revert s; induction t as [|b t IH]; intros s H; simpl in *.
  - now exists s.
  - destruct s as [|a s]; [discriminate |].
    destruct (Ascii.eqb_spec a b) as [-> | _]; [| discriminate].
    destruct (IH _ H) as [r ->]. now exists r.
Qed.

Lemma includes_intro (p t r : string) : JS.includes (p +:+ t +:+ r) t = true.
Proof.
  assert (H0 : JS.includes (t +:+ r) t = true).
  { pose proof (startsWith_app t r) as H.
    destruct (t +:+ r); simpl; [exact H | now rewrite H]. }
  induction p as [|a p IH]; simpl; [exact H0 |].
  rewrite IH. apply orb_true_r.
Qed.

Lemma includes_inv (s t : string) :
  JS.includes s t = true -> exists p r, s = p +:+ t +:+ r.
Proof.
  induction s as [|a s IH]; simpl; intros H.
  - destruct t; [| discriminate]. now exists "", "".
  - apply orb_true_iff in H as [H | H].
    + destruct (startsWith_inv _ _ H) as [r Hr]. now exists "", r.
    + destruct (IH H) as (p & r & ->). now exists (String a p), r.
Qed.

(** [includes] is exactly "occurs as a contiguous segment". *)
Lemma includes_spec (s t : string) :
  JS.includes s t = true <-> exists p r, s = p +:+ t +:+ r.
Proof.
  split; [apply includes_inv |].
  intros (p & r & ->). apply includes_intro.
Qed.

Lemma includes_within (p s r t : string) :
  JS.includes s t = true -> JS.includes (p +:+ s +:+ r) t = true.
Proof.
  intros H. apply includes_inv in H as (p' & r' & ->).
  apply includes_spec. exists (p +:+ p'), (r' +:+ r).
  now rewrite !app_assoc_str.
Qed.

Lemma includes_suffix (p s t : string) :
  JS.includes s t = true -> JS.includes (p +:+ s) t = true.
Proof.
  intros H. replace (p +:+ s) with (p +:+ s +:+ "") by now rewrite app_empty_r.
  now apply includes_within.
Qed.

(** [stripLeadingSlashes] cuts a run of slashes off the front. *)
Lemma stripLeadingSlashes_suffix (s : string) :
  exists p, s = p +:+ JS.stripLeadingSlashes s.
Proof.
  induction s as [|a s [p IH]]; simpl.
  - now exists "".
  - destruct (Ascii.eqb a "/").
    + exists (String a p). simpl. now rewrite <- IH.
    + now exists "".
Qed.

Lemma stripLeadingSlashes_idem (s : string) :
  JS.stripLeadingSlashes (JS.stripLeadingSlashes s) = JS.stripLeadingSlashes s.
Proof.
  induction s as [|a s IH]; simpl; [reflexivity |].
  destruct (Ascii.eqb a "/") eqn:E; [exact IH |].
  simpl. now rewrite E.
Qed.

Lemma includes_stripLeadingSlashes (s t : string) :
  JS.includes (JS.stripLeadingSlashes s) t = true -> JS.includes s t = true.
Proof.
  intros H. destruct (stripLeadingSlashes_suffix s) as [p Hp].
  rewrite Hp. now apply includes_suffix.
Qed.

Lemma ascii_N_ascii (a : ascii) : ascii_of_N (N_of_ascii a) = a.
Proof. apply ascii_N_embedding. Qed.

(** A string without ['%'] is its own percent-decoding. *)
Lemma decodeURIComponent_plain (s : string) :
  JS.includes s "%" = false -> JS.decodeURIComponent s = Normal s.
Proof.
  induction s as [|a s IH]; [reflexivity |].
  intros H. cbn [JS.includes JS.startsWith] in H.
  apply orb_false_iff in H as [Ha Hs].
  cbn [JS.decodeURIComponent].
  destruct (Ascii.eqb a "%") eqn:E; [discriminate |].
  cbn [negb]. rewrite (IH Hs). cbn. now rewrite ascii_N_ascii.
Qed.

Lemma validHeaderValue_app (a b : string) :
  JS.validHeaderValue (a +:+ b)
  = JS.validHeaderValue a && JS.validHeaderValue b.
Proof.
  induction a as [|c a IH]; cbn [String.append JS.validHeaderValue];
    [reflexivity |].
  now rewrite IH, andb_assoc.
Qed.

(** The [Content-Disposition] of line 85 is a valid header value exactly
    when the file name is. *)
Lemma contentDisposition_valid (filename : string) :
  JS.validHeaderValue ("inline; filename=" +:+ DQ +:+ filename +:+ DQ)
  = JS.validHeaderValue filename.
Proof.
  rewrite !validHeaderValue_app.
  change (JS.validHeaderValue "inline; filename=") with true.
  change (JS.validHeaderValue DQ) with true.
  now rewrite andb_true_r.
Qed.

End StringFacts.

(** ** The single-object handlers *)

Section SingleObject.

Context {S : Type}.
Variable P : Platform.
Variable B : Bucket S.

(** PUT answers 400 without touching the store or the cache when the
    decoded path contains "..". *)
Lemma handlePutFile_rejects_dotdot (request : Request) (filePath : string)
    (w : World S) :
  JS.decodeURIComponent (pathname (url request)) = Normal filePath ->
  JS.includes filePath ".." = true ->
  handlePutFile P B request w = (Normal (invalidPath (corsHeaders P)), w).
Proof.
  intros Hd Hi. unfold handlePutFile, putFilePath, bind, lift.
  now rewrite Hd, Hi.
Qed.

(** DELETE decodes the path without its first character and answers 400
    without touching the store or the cache when that contains "..". *)
Lemma handleDeleteFile_rejects_dotdot (request : Request) (filePath : string)
    (w : World S) :
  JS.decodeURIComponent (JS.slice1 (pathname (url request))) = Normal filePath ->
  JS.includes filePath ".." = true ->
  handleDeleteFile P B request w = (Normal (invalidPath []), w).
Proof.
  intros Hd Hi. unfold handleDeleteFile, bind, lift.
  now rewrite Hd, Hi.
Qed.

(** GET never looks for ".."; on any path but [/] it asks the store
    for the decoded name. *)
Lemma handleGetFile_calls (request : Request) (filename : string)
    (w : World S) :
  JS.decodeURIComponent (JS.slice1 (pathname (url request))) = Normal filename ->
  pathname (url request) <> "/" ->
  calls (snd (handleGetFile P B request w)) = calls w ++ [CallGet filename]
  /\ store (snd (handleGetFile P B request w))
     = snd (bucket_get B filename (store w)).
Proof.
  intros Hd Hp.
  unfold handleGetFile, bind, lift, MY_BUCKET_get, ret. rewrite Hd.
  destruct (String.eqb_spec (pathname (url request)) "/") as [E | _];
    [contradiction |].
  destruct (bucket_get B filename (store w)) as [[[file_body |] | m] s];
    cbn; auto.
  destruct (JS.validHeaderValue _); cbn; auto.
Qed.

(** When the store has no such object the answer is 404. *)
Lemma handleGetFile_missing (request : Request) (filename : string)
    (w : World S) :
  JS.decodeURIComponent (JS.slice1 (pathname (url request))) = Normal filename ->
  pathname (url request) <> "/" ->
  fst (bucket_get B filename (store w)) = Normal None ->
  fst (handleGetFile P B request w)
  = Normal {| body := "File not found"; status := 404;
              headers := corsHeaders P |}.
Proof.
  intros Hd Hp Hnone.
  unfold handleGetFile, bind, lift, MY_BUCKET_get, ret. rewrite Hd.
  destruct (String.eqb_spec (pathname (url request)) "/") as [E | _];
    [contradiction |].
  destruct (bucket_get B filename (store w)) as [r s]. cbn in Hnone.
  now rewrite Hnone.
Qed.

(** For a name that is a valid header value, GET answers with what the
    store says. *)
Lemma handleGetFile_fetches (request : Request) (filename : string)
    (w : World S) :
  JS.decodeURIComponent (JS.slice1 (pathname (url request))) = Normal filename ->
  pathname (url request) <> "/" ->
  JS.validHeaderValue filename = true ->
  let answer := bucket_get B filename (store w) in
  calls (snd (handleGetFile P B request w)) = calls w ++ [CallGet filename]
  /\ store (snd (handleGetFile P B request w)) = snd answer
  /\ match fst (handleGetFile P B request w) with
     | Normal response =>
         match fst answer with
         | Normal None => status response = 404
         | Normal (Some file_body) =>
             status response = 200 /\ body response = file_body
         | Throw _ => False
         end
     | Throw m => fst answer = Throw m
     end.
Proof.
  intros Hd Hp Hvalid answer. subst answer.
  unfold handleGetFile, bind, lift, MY_BUCKET_get, ret. rewrite Hd.
  destruct (String.eqb_spec (pathname (url request)) "/") as [E | _];
    [contradiction |].
  rewrite contentDisposition_valid, Hvalid.
  destruct (bucket_get B filename (store w)) as [[[file_body |] | m] s];
    cbn; auto.
Qed.

(** PUT, once the path is accepted, makes exactly one [put] call and
    answers 201 or, when something in the [try] block throws, 500. *)
Lemma handlePutFile_stores (request : Request) (filePath : string)
    (w : World S) :
  putFilePath (pathname (url request)) = Normal (Some filePath) ->
  let contentType :=
    JS.or_else (mimeTypes P (extensionOf P filePath)) "application/octet-stream" in
  calls (snd (handlePutFile P B request w))
    = calls w ++ [CallPut filePath (arrayBuffer request) contentType]
  /\ match fst (handlePutFile P B request w) with
     | Normal response => status response = 201 \/ status response = 500
     | Throw _ => False
     end.
Proof.
  intros Hk contentType. subst contentType.
  unfold handlePutFile, bind, lift, tryCatch, ret, MY_BUCKET_put,
    waitUntil_cache_delete. rewrite Hk.
  destruct (bucket_put B filePath _ _ (store w)) as [[[] | m] s]; cbn;
    [| auto].
  destruct (newURL P "/" (href (url request))); cbn; auto.
Qed.

(** DELETE, once the path is accepted, makes exactly one [delete] call and
    answers 200 or, when something in the [try] block throws, 500. *)
Lemma handleDeleteFile_deletes (request : Request) (filePath : string)
    (w : World S) :
  JS.decodeURIComponent (JS.slice1 (pathname (url request))) = Normal filePath ->
  JS.includes filePath ".." = false ->
  calls (snd (handleDeleteFile P B request w)) = calls w ++ [CallDelete filePath]
  /\ match fst (handleDeleteFile P B request w) with
     | Normal response => status response = 200 \/ status response = 500
     | Throw _ => False
     end.
Proof.
  intros Hd Hi.
  unfold handleDeleteFile, bind, lift, tryCatch, ret, MY_BUCKET_delete,
    waitUntil_cache_delete. rewrite Hd, Hi.
  destruct (bucket_delete B filePath (store w)) as [[[] | m] s]; cbn; [| auto].
  match goal with |- context [newURL P ?d ?o] => destruct (newURL P d o) end;
    cbn; auto.
Qed.

End SingleObject.

(** C1, at the path [/a..b]: the decoded path contains "..", PUT and DELETE
    answer 400 and leave the store alone, but GET asks the store for the
    object [a..b] and answers with what the store says (404, 200 or the
    store's own error), never with 400. *)
Theorem C1_get_serves_dotdot_path :
  forall (S : Type) (P : Platform) (B : Bucket S) (base : string) (w : World S),
    let request := mkRequest base "/a..b" in
    let answer := bucket_get B "a..b" (store w) in
    JS.decodeURIComponent (pathname (url request)) = Normal "/a..b"
    /\ JS.includes "/a..b" ".." = true
    /\ handlePutFile P B request w = (Normal (invalidPath (corsHeaders P)), w)
    /\ handleDeleteFile P B request w = (Normal (invalidPath []), w)
    /\ calls (snd (handleGetFile P B request w)) = calls w ++ [CallGet "a..b"]
    /\ store (snd (handleGetFile P B request w)) = snd answer
    /\ match fst (handleGetFile P B request w) with
       | Normal response =>
           match fst answer with
           | Normal None => status response = 404
           | Normal (Some file_body) =>
               status response = 200 /\ body response = file_body
           | Throw _ => False
           end
       | Throw m => fst answer = Throw m
       end.
Proof.
  intros S P B base w request answer.
  split; [reflexivity |]. split; [reflexivity |].
  split; [now apply handlePutFile_rejects_dotdot with (filePath := "/a..b") |].
  split; [now apply handleDeleteFile_rejects_dotdot with (filePath := "a..b") |].
  now apply handleGetFile_fetches.
Qed.

(** C5, at the path [/]: PUT hands the empty key to the store and answers
    201 (or 500 when the store throws), DELETE deletes the empty key and
    answers 200 (or 500); neither answers 400. *)
Theorem C5_root_path_reaches_store :
  forall (S : Type) (P : Platform) (B : Bucket S) (base : string) (w : World S),
    let request := mkRequest base "/" in
    let contentType :=
      JS.or_else (mimeTypes P (extensionOf P "")) "application/octet-stream" in
    putFilePath "/" = Normal (Some "")
    /\ calls (snd (handlePutFile P B request w))
      = calls w ++ [CallPut "" "data" contentType]
    /\ match fst (handlePutFile P B request w) with
       | Normal response => status response = 201 \/ status response = 500
       | Throw _ => False
       end
    /\ calls (snd (handleDeleteFile P B request w)) = calls w ++ [CallDelete ""]
    /\ match fst (handleDeleteFile P B request w) with
       | Normal response => status response = 200 \/ status response = 500
       | Throw _ => False
       end.
Proof.
  intros S P B base w request contentType.
  split; [reflexivity |].
  destruct (handlePutFile_stores P B request "" w eq_refl) as [Hc Hs].
  destruct (handleDeleteFile_deletes P B request "" w eq_refl eq_refl)
    as [Hc' Hs'].
  auto.
Qed.

(** ** Cache eviction after a mutation *)

Section LastSlash.

Lemma lastIndexOf_from_absent (c : ascii) (s : string) (i acc : Z) :
  JS.includes s (String c "") = false -> JS.lastIndexOf_from i acc c s = acc.
Proof.
  revert i acc; induction s as [|a s IH]; intros i acc H; [reflexivity |].
  cbn [JS.includes JS.startsWith] in H.
  apply orb_false_iff in H as [Ha Hs].
  cbn [JS.lastIndexOf_from].
  destruct (Ascii.eqb a c); [discriminate | now apply IH].
Qed.

Lemma lastIndexOf_from_split (c : ascii) (p leaf : string) (i acc : Z) :
  JS.includes leaf (String c "") = false ->
  JS.lastIndexOf_from i acc c (p +:+ String c leaf)
  = i + Z.of_nat (String.length p).
Proof.
  intros Hleaf. revert i acc; induction p as [|a p IH]; intros i acc.
  - cbn. rewrite Ascii.eqb_refl, lastIndexOf_from_absent by assumption. lia.
  - cbn [String.append JS.lastIndexOf_from String.length].
    rewrite IH. lia.
Qed.

Lemma take_app (p r : string) : JS.take (String.length p) (p +:+ r) = p.
Proof.
  induction p as [|a p IH]; cbn; [now destruct r | now rewrite IH].
Qed.

(** The directory [handleDeleteFile] computes (lines 13-17) is the part of
    the key before its last slash, behind a slash. *)
Lemma delete_dir_of_nested (parent leaf : string) :
  JS.includes leaf "/" = false ->
  (if JS.includes (parent +:+ "/" +:+ leaf) "/" then
     if JS.lastIndexOf (parent +:+ "/" +:+ leaf) "/" >? 0
     then "/" +:+ JS.substring0 (parent +:+ "/" +:+ leaf)
                    (JS.lastIndexOf (parent +:+ "/" +:+ leaf) "/")
     else "/"
   else "/") = "/" +:+ parent.
Proof.
  intros Hleaf.
  rewrite includes_intro.
  unfold JS.lastIndexOf, JS.substring0.
  change ("/" +:+ leaf) with (String "/" leaf).
  rewrite lastIndexOf_from_split by assumption.
  rewrite Z.add_0_l, Nat2Z.id, take_app.
  destruct parent as [|a parent]; [reflexivity |].
  cbn [String.length]. rewrite Nat2Z.inj_succ.
  destruct (Z.gtb_spec (Z.succ (Z.of_nat (String.length parent))) 0);
    [reflexivity | lia].
Qed.

End LastSlash.

Section Eviction.

Context {S : Type}.
Variable P : Platform.
Variable B : Bucket S.

(** A successful DELETE of a key with a slash schedules one eviction, of
    the listing URL of the key's parent directory. *)
Lemma handleDeleteFile_evicts_parent (request : Request)
    (parent leaf listingUrl : string) (w : World S) (s' : S) :
  let filePath := parent +:+ "/" +:+ leaf in
  JS.decodeURIComponent (JS.slice1 (pathname (url request))) = Normal filePath ->
  JS.includes filePath ".." = false ->
  JS.includes leaf "/" = false ->
  bucket_delete B filePath (store w) = (Normal tt, s') ->
  newURL P ("/" +:+ parent) (origin (url request)) = Normal listingUrl ->
  handleDeleteFile P B request w =
    (Normal {| body := "File deleted successfully"; status := 200;
               headers := corsHeaders P |},
     {| store := s'; calls := calls w ++ [CallDelete filePath];
        pending := pending w
                   ++ [{| cacheUrl := listingUrl; cacheTtl := Some 604800 |}] |}).
Proof.
  intros filePath Hd Hi Hleaf Hdel Hurl. subst filePath.
  unfold handleDeleteFile, bind, lift, tryCatch, ret, MY_BUCKET_delete,
    waitUntil_cache_delete.
  rewrite Hd. cbv beta iota zeta. rewrite Hi, Hdel. cbv beta iota zeta.
  rewrite (delete_dir_of_nested parent leaf Hleaf), Hurl. reflexivity.
Qed.

(** A successful DELETE of a key without a slash evicts the root listing. *)
Lemma handleDeleteFile_evicts_root (request : Request)
    (filePath listingUrl : string) (w : World S) (s' : S) :
  JS.decodeURIComponent (JS.slice1 (pathname (url request))) = Normal filePath ->
  JS.includes filePath ".." = false ->
  JS.includes filePath "/" = false ->
  bucket_delete B filePath (store w) = (Normal tt, s') ->
  newURL P "/" (origin (url request)) = Normal listingUrl ->
  handleDeleteFile P B request w =
    (Normal {| body := "File deleted successfully"; status := 200;
               headers := corsHeaders P |},
     {| store := s'; calls := calls w ++ [CallDelete filePath];
        pending := pending w
                   ++ [{| cacheUrl := listingUrl; cacheTtl := Some 604800 |}] |}).
Proof.
  intros Hd Hi Hs Hdel Hurl.
  unfold handleDeleteFile, bind, lift, tryCatch, ret, MY_BUCKET_delete,
    waitUntil_cache_delete.
  rewrite Hd. cbv beta iota zeta. rewrite Hi, Hdel. cbv beta iota zeta.
  rewrite Hs, Hurl. reflexivity.
Qed.

(** A successful PUT schedules one eviction, always of the root listing:
    the reference resolved is the constant "/", whatever the key. *)
Lemma handlePutFile_evicts_root (request : Request)
    (filePath listingUrl : string) (w : World S) (s' : S) :
  putFilePath (pathname (url request)) = Normal (Some filePath) ->
  let contentType :=
    JS.or_else (mimeTypes P (extensionOf P filePath)) "application/octet-stream" in
  bucket_put B filePath (arrayBuffer request) contentType (store w)
    = (Normal tt, s') ->
  newURL P "/" (href (url request)) = Normal listingUrl ->
  handlePutFile P B request w =
    (Normal {| body := "File uploaded successfully"; status := 201;
               headers := corsHeaders P |},
     {| store := s';
        calls := calls w ++ [CallPut filePath (arrayBuffer request) contentType];
        pending := pending w
                   ++ [{| cacheUrl := listingUrl; cacheTtl := None |}] |}).
Proof.
  intros Hk contentType Hput Hurl. subst contentType.
  unfold handlePutFile, bind, lift, tryCatch, ret, MY_BUCKET_put,
    waitUntil_cache_delete.
  rewrite Hk. cbv beta iota zeta. rewrite Hput. cbv beta iota zeta.
  rewrite Hurl. reflexivity.
Qed.

End Eviction.

(** C2, at the path [/a/b.txt] on the reference runtime: both mutations
    succeed and each leaves exactly one pending eviction; DELETE's is for
    the listing of the parent [/a], PUT's is for the root listing. *)
Theorem C2_put_evicts_root_not_parent :
  let request := mkRequest "http://h" "/a/b.txt" in
  let afterPut := handlePutFile refPlatform memBucket request (freshWorld emptyStore) in
  let afterDelete :=
    handleDeleteFile refPlatform memBucket request (freshWorld emptyStore) in
  (status <$> match fst afterPut with Normal r => Some r | Throw _ => None end)
    = Some 201
  /\ calls (snd afterPut) = [CallPut "a/b.txt" "data" "text/plain"]
  /\ pending (snd afterPut) = [{| cacheUrl := "http://h/"; cacheTtl := None |}]
  /\ (status <$> match fst afterDelete with Normal r => Some r | Throw _ => None end)
    = Some 200
  /\ calls (snd afterDelete) = [CallDelete "a/b.txt"]
  /\ pending (snd afterDelete)
     = [{| cacheUrl := "http://h/a"; cacheTtl := Some 604800 |}].
Proof. vm_compute. repeat split. Qed.

(** ** Canonicalisation of the PUT path *)

(** C4 as stated fails: [/%2541] is accepted with key [%41], and that key
    is canonicalised to [A]. *)
Lemma C4_double_decoding :
  putFilePath "/%2541" = Normal (Some "%41")
  /\ putFilePath "%41" = Normal (Some "A")
  /\ putFilePath "%41" <> Normal (Some "%41").
Proof. split; [reflexivity | split; [reflexivity | discriminate]]. Qed.

(** Two more ways for a second pass to differ: a blank key, and the empty
    key produced by the path [/]. *)
Lemma putFilePath_second_pass_rejects :
  putFilePath "/%20" = Normal (Some " ") /\ putFilePath " " = Normal None
  /\ putFilePath "/" = Normal (Some "") /\ putFilePath "" = Normal None.
Proof. repeat split; reflexivity. Qed.

(** C4, amended: the canonicalisation of [handlePutFile] is idempotent on
    every accepted input whose key contains no ['%'] and is not blank. *)
Theorem C4_canonicalize_idempotent (raw k : string) :
  putFilePath raw = Normal (Some k) ->
  JS.includes k "%" = false ->
  JS.isEmpty (JS.trim k) = false ->
  putFilePath k = Normal (Some k).
Proof.
  unfold putFilePath. intros Hraw Hpct Hblank.
  destruct (JS.decodeURIComponent raw) as [filePath | m]; [| discriminate].
  destruct (JS.includes filePath "..") eqn:Hdd; [discriminate |].
  destruct (JS.isEmpty (JS.trim filePath)); [discriminate |].
  cbn [orb] in Hraw. injection Hraw as <-.
  rewrite decodeURIComponent_plain by assumption.
  rewrite Hblank, orb_false_r.
  destruct (JS.includes (JS.stripLeadingSlashes filePath) "..") eqn:Hk.
  - apply includes_stripLeadingSlashes in Hk. congruence.
  - now rewrite stripLeadingSlashes_idem.
Qed.

Lemma C4_canonicalize_idempotent_witness :
  putFilePath "docs/a b.txt" = Normal (Some "docs/a b.txt").
Proof.
  apply (C4_canonicalize_idempotent "//docs/a%20b.txt" "docs/a b.txt");
    reflexivity.
Defined.

(** ** Bulk upload *)

(** C9: the entry pushed for a stored file names the file under
    [sanitizedFilename] and has no field [filename], while the entry pushed
    for a refused file has it; so for one file [a.txt] stored on the
    reference runtime, the only entry of the response array has the fields
    [sanitizedFilename], [status] and [contentType]. *)
Theorem C9_success_entry_has_no_filename :
  forall (P : Platform) (f : File) (message : string),
    let request := uploadRequest "http://h" [{| name := "a.txt"; content := "hi" |}] in
    let entry := [("sanitizedFilename", "a.txt"); ("status", "success");
                  ("contentType", "text/plain")] in
    fst (handleMultpleUploads refPlatform memBucket request (freshWorld emptyStore))
    = Normal {| body := JSON_stringify [entry]; status := 200;
                headers := bulkHeaders refPlatform |}
    /\ get_prop "filename" entry = None
    /\ get_prop "filename" (successEntry P f) = None
    /\ get_prop "status" (successEntry P f) = Some "success"
    /\ get_prop "contentType" (successEntry P f) = Some (contentTypeOf P f)
    /\ get_prop "filename" (failedEntry f message) = Some (name f)
    /\ get_prop "status" (failedEntry f message) = Some "failed"
    /\ get_prop "error" (failedEntry f message) = Some message.
Proof.
  intros P f message request entry.
  split; [vm_compute; reflexivity |]. repeat split.
Qed.

Section BulkUpload.

Context {S : Type}.
Variable P : Platform.
Variable B : Bucket S.
Variable request : Request.
Variable root : string.

Lemma storeEach_reports (files : list File) (w : World S) :
  Forall2 (reports P) files (fst (storeEach P B root files w)).
Proof.
  revert w; induction files as [|f fs IH]; intros w; cbn; [constructor |].
  destruct (bucket_put B _ _ _ (store w)) as [[[] | m] s'];
    match goal with |- context [storeEach P B root fs ?w1] =>
      specialize (IH w1); destruct (storeEach P B root fs w1) as [es w'] end;
    cbn in *; constructor; auto; [now left | right; now exists m].
Qed.

Lemma storeEach_calls (files : list File) (w : World S) :
  calls (snd (storeEach P B root files w)) = calls w ++ map (putCall P) files.
Proof.
  revert w; induction files as [|f fs IH]; intros w; cbn.
  - now rewrite app_nil_r.
  - destruct (bucket_put B _ _ _ (store w)) as [[[] | m] s'];
      match goal with |- context [storeEach P B root fs ?w1] =>
        specialize (IH w1); destruct (storeEach P B root fs w1) as [es w'] end;
      cbn in *; rewrite IH; cbn; now rewrite <- app_assoc.
Qed.

Lemma storeEach_pending (files : list File) (w : World S) :
  pending (snd (storeEach P B root files w))
  = pending w
    ++ map (fun _ => rootEviction root)
         (List.filter succeeded (fst (storeEach P B root files w))).
Proof.
  revert w; induction files as [|f fs IH]; intros w; cbn.
  - now rewrite app_nil_r.
  - destruct (bucket_put B _ _ _ (store w)) as [[[] | m] s'];
      match goal with |- context [storeEach P B root fs ?w1] =>
        specialize (IH w1); destruct (storeEach P B root fs w1) as [es w'] end;
      cbn in *; rewrite IH; cbn; [now rewrite <- app_assoc | reflexivity].
Qed.

Hypothesis Hroot : newURL P "/" (href (url request)) = Normal root.

(** The loop over a run of accepted entries is [storeEach] on its files. *)
Lemma uploadEntries_accepted
    (pre rest : list (string * FormDataEntryValue))
    (results : list JSObject) (w : World S) :
  forallb acceptedName (fileItems pre) = true ->
  uploadEntries P B request (pre ++ rest) results w
  = uploadEntries P B request rest
      (results ++ fst (storeEach P B root (fileItems pre) w))
      (snd (storeEach P B root (fileItems pre) w)).
Proof.
  revert results w; induction pre as [|[fieldName [v | f]] pre IH];
    intros results w Hacc.
  - cbn. now rewrite app_nil_r.
  - cbn in *. now apply IH.
  - cbn [fileItems forallb] in Hacc.
    apply andb_true_iff in Hacc as [Hf Hpre].
    unfold acceptedName in Hf. apply andb_true_iff in Hf as [Hdd Hne].
    apply negb_true_iff in Hdd.
    cbn [app uploadEntries fileItems storeEach].
    rewrite Hdd, Hne. cbn [negb].
    unfold bind at 1, tryCatch at 1, bind at 1, MY_BUCKET_put.
    fold (contentTypeOf P f).
    destruct (bucket_put B _ _ _ (store w)) as [[[] | m] s']; cbn beta iota.
    + unfold tryCatch, bind, lift, waitUntil_cache_delete, ret, called.
      rewrite Hroot. cbn beta iota.
      rewrite IH by assumption. cbn [store calls pending].
      fold (successEntry P f). fold (rootEviction root). fold (putCall P f).
      destruct (storeEach P B root (fileItems pre) _) as [es w']. cbn [fst snd].
      now rewrite <- app_assoc.
    + unfold ret, called. rewrite IH by assumption.
      fold (failedEntry f m). fold (putCall P f).
      destruct (storeEach P B root (fileItems pre) _) as [es w']. cbn [fst snd].
      now rewrite <- app_assoc.
Qed.

End BulkUpload.

(** The example of the specification: three files, the store refuses the
    second; the answer is 200 with three entries, success, failed (with the
    store's message), success, and the first and third files are stored. *)
Example bulk_three_items_middle_fails :
  let run :=
    handleMultpleUploads refPlatform memBucket
      (uploadRequest "http://h" threeFiles) (freshWorld (refusing ["b.txt"])) in
  fst run
  = Normal {| body :=
                JSON_stringify
                  [[("sanitizedFilename", "a.txt"); ("status", "success");
                    ("contentType", "text/plain")];
                   [("filename", "b.txt"); ("status", "failed");
                    ("error", "store unavailable")];
                   [("sanitizedFilename", "c.png"); ("status", "success");
                    ("contentType", "image/png")]];
              status := 200;
              headers := bulkHeaders refPlatform |}
  /\ so_content <$> objects (store (snd run)) !! "a.txt" = Some "one"
  /\ objects (store (snd run)) !! "b.txt" = None
  /\ so_content <$> objects (store (snd run)) !! "c.png" = Some "three".
Proof. vm_compute. repeat split. Qed.

(** C6 as stated fails: the store refuses the second of three files and
    the third is named [../c]; the answer is 400, not 200 with an array. *)
Lemma C6_later_traversal_name_gives_400 :
  let files :=
    [{| name := "a.txt"; content := "one" |};
     {| name := "b.txt"; content := "two" |};
     {| name := "../c"; content := "three" |}] in
  let run :=
    handleMultpleUploads refPlatform memBucket
      (uploadRequest "http://h" files) (freshWorld (refusing ["b.txt"])) in
  fst run = Normal {| body := "Invalid path"; status := 400; headers := [] |}
  /\ calls (snd run)
     = [CallPut "a.txt" "one" "text/plain"; CallPut "b.txt" "two" "text/plain"].
Proof. vm_compute. repeat split. Qed.

(** C6, amended: when no file item has ".." in its name or a name that is
    empty without its leading slashes, every file item is put to the store
    in turn, whatever happened to the ones before; the answer is 200 with
    an array holding one entry per file item, in order: a success entry
    when the store took the file, a failed entry with the store's message
    when it threw.  The store is called with puts only. *)
Theorem C6_bulk_upload_reports_each_item :
  forall (S : Type) (P : Platform) (B : Bucket S) (request : Request)
         (root : string) (entries : list (string * FormDataEntryValue))
         (w : World S),
    formData request = Normal entries ->
    newURL P "/" (href (url request)) = Normal root ->
    forallb acceptedName (fileItems entries) = true ->
    exists results w',
      handleMultpleUploads P B request w
      = (Normal {| body := JSON_stringify results; status := 200;
                   headers := bulkHeaders P |}, w')
      /\ (results, w') = storeEach P B root (fileItems entries) w
      /\ length results = length (fileItems entries)
      /\ Forall2 (reports P) (fileItems entries) results
      /\ calls w' = calls w ++ map (putCall P) (fileItems entries).
Proof.
  intros S P B request root entries w Hform Hroot Hacc.
  exists (fst (storeEach P B root (fileItems entries) w)),
         (snd (storeEach P B root (fileItems entries) w)).
  pose proof (storeEach_reports P B root (fileItems entries) w) as Hrep.
  split; [| split; [| split; [| split]]].
  - unfold handleMultpleUploads, bind, lift. rewrite Hform.
    rewrite <- (app_nil_r entries) at 1.
    now rewrite (uploadEntries_accepted P B request root Hroot).
  - now destruct (storeEach P B root (fileItems entries) w).
  - symmetry. exact (Forall2_length _ _ _ Hrep).
  - exact Hrep.
  - apply storeEach_calls.
Qed.

Lemma C6_bulk_upload_reports_each_item_witness :
  exists results w',
    handleMultpleUploads refPlatform memBucket
      (uploadRequest "http://h" threeFiles) (freshWorld (refusing ["b.txt"]))
    = (Normal {| body := JSON_stringify results; status := 200;
                 headers := bulkHeaders refPlatform |}, w')
    /\ (results, w')
       = storeEach refPlatform memBucket "http://h/" threeFiles
           (freshWorld (refusing ["b.txt"]))
    /\ length results = 3%nat
    /\ Forall2 (reports refPlatform) threeFiles results
    /\ calls w' = map (putCall refPlatform) threeFiles.
Proof.
  apply (C6_bulk_upload_reports_each_item MemStore refPlatform memBucket
           (uploadRequest "http://h" threeFiles) "http://h/"
           (map (fun f => ("files", FileValue f)) threeFiles));
    reflexivity.
Defined.

(** C7 as stated fails: a first file named [/] (empty once its leading
    slash is gone) fails the whole request with 400, and the file after it
    never reaches the store. *)
Lemma C7_empty_name_fails_request :
  let files :=
    [{| name := "/"; content := "one" |};
     {| name := "b.txt"; content := "two" |}] in
  let run :=
    handleMultpleUploads refPlatform memBucket
      (uploadRequest "http://h" files) (freshWorld emptyStore) in
  fst run = Normal {| body := "Invalid filename"; status := 400; headers := [] |}
  /\ calls (snd run) = [].
Proof. vm_compute. repeat split. Qed.

(** C7, amended: a file item whose name has no ".." and is empty once its
    leading slashes are gone ends the request with status 400 and the body
    "Invalid filename"; the items after it are not processed, and what the
    accepted items before it did to the store and the cache stays. *)
Theorem C7_empty_name_rejects_request :
  forall (S : Type) (P : Platform) (B : Bucket S) (request : Request)
         (root fieldName : string) (pre rest : list (string * FormDataEntryValue))
         (file : File) (w : World S),
    formData request = Normal (pre ++ (fieldName, FileValue file) :: rest) ->
    newURL P "/" (href (url request)) = Normal root ->
    forallb acceptedName (fileItems pre) = true ->
    JS.includes (name file) ".." = false ->
    JS.stripLeadingSlashes (name file) = "" ->
    let w' := snd (storeEach P B root (fileItems pre) w) in
    handleMultpleUploads P B request w
    = (Normal {| body := "Invalid filename"; status := 400; headers := [] |}, w')
    /\ calls w' = calls w ++ map (putCall P) (fileItems pre).
Proof.
  intros S P B request root fieldName pre rest file w Hform Hroot Hacc Hdd Hempty w'.
  split; [| apply storeEach_calls].
  unfold handleMultpleUploads, bind, lift. rewrite Hform.
  rewrite (uploadEntries_accepted P B request root Hroot) by assumption.
  cbn [uploadEntries]. now rewrite Hdd, Hempty.
Qed.

Lemma C7_empty_name_rejects_request_witness :
  let files :=
    [{| name := "a.txt"; content := "one" |};
     {| name := "//"; content := "two" |};
     {| name := "c.png"; content := "three" |}] in
  let w' :=
    snd (storeEach refPlatform memBucket "http://h/"
           [{| name := "a.txt"; content := "one" |}] (freshWorld emptyStore)) in
  handleMultpleUploads refPlatform memBucket (uploadRequest "http://h" files)
    (freshWorld emptyStore)
  = (Normal {| body := "Invalid filename"; status := 400; headers := [] |}, w')
  /\ calls w' = [putCall refPlatform {| name := "a.txt"; content := "one" |}].
Proof.
  apply (C7_empty_name_rejects_request MemStore refPlatform memBucket
           (uploadRequest "http://h"
              [{| name := "a.txt"; content := "one" |};
               {| name := "//"; content := "two" |};
               {| name := "c.png"; content := "three" |}])
           "http://h/" "files"
           [("files", FileValue {| name := "a.txt"; content := "one" |})]
           [("files", FileValue {| name := "c.png"; content := "three" |})]
           {| name := "//"; content := "two" |});
    reflexivity.
Defined.

(** C10: a file item with ".." in its name, coming after accepted items,
    ends the request with status 400 and the body "Invalid path", which
    names none of the earlier items; the store and the cache are left as
    the earlier items made them: their puts are the only store calls, and
    one root eviction per stored item stays pending. *)
Theorem C10_traversal_name_after_stored_items :
  forall (S : Type) (P : Platform) (B : Bucket S) (request : Request)
         (root fieldName : string) (pre rest : list (string * FormDataEntryValue))
         (file : File) (w : World S),
    formData request = Normal (pre ++ (fieldName, FileValue file) :: rest) ->
    newURL P "/" (href (url request)) = Normal root ->
    forallb acceptedName (fileItems pre) = true ->
    JS.includes (name file) ".." = true ->
    let stored := storeEach P B root (fileItems pre) w in
    handleMultpleUploads P B request w
    = (Normal {| body := "Invalid path"; status := 400; headers := [] |},
       snd stored)
    /\ calls (snd stored) = calls w ++ map (putCall P) (fileItems pre)
    /\ pending (snd stored)
       = pending w
         ++ map (fun _ => rootEviction root) (List.filter succeeded (fst stored)).
Proof.
  intros S P B request root fieldName pre rest file w Hform Hroot Hacc Hdd stored.
  split; [| split; [apply storeEach_calls | apply storeEach_pending]].
  unfold handleMultpleUploads, bind, lift. rewrite Hform.
  rewrite (uploadEntries_accepted P B request root Hroot) by assumption.
  cbn [uploadEntries]. now rewrite Hdd.
Qed.

Lemma C10_traversal_name_after_stored_items_witness :
  let first := {| name := "a.txt"; content := "one" |} in
  let files := [first; {| name := "../etc"; content := "two" |};
                {| name := "c.png"; content := "three" |}] in
  let stored :=
    storeEach refPlatform memBucket "http://h/" [first] (freshWorld emptyStore) in
  handleMultpleUploads refPlatform memBucket (uploadRequest "http://h" files)
    (freshWorld emptyStore)
  = (Normal {| body := "Invalid path"; status := 400; headers := [] |},
     snd stored)
  /\ calls (snd stored) = [putCall refPlatform first]
  /\ pending (snd stored)
     = map (fun _ => rootEviction "http://h/")
         (List.filter succeeded (fst stored)).
Proof.
  apply (C10_traversal_name_after_stored_items MemStore refPlatform memBucket
           (uploadRequest "http://h"
              [{| name := "a.txt"; content := "one" |};
               {| name := "../etc"; content := "two" |};
               {| name := "c.png"; content := "three" |}])
           "http://h/" "files"
           [("files", FileValue {| name := "a.txt"; content := "one" |})]
           [("files", FileValue {| name := "c.png"; content := "three" |})]
           {| name := "../etc"; content := "two" |});
    reflexivity.
Defined.

(** In that run the first file is in the store afterwards and its root
    eviction is pending. *)
Example traversal_name_keeps_earlier_item :
  let files := [{| name := "a.txt"; content := "one" |};
                {| name := "../etc"; content := "two" |}] in
  let run :=
    handleMultpleUploads refPlatform memBucket (uploadRequest "http://h" files)
      (freshWorld emptyStore) in
  so_content <$> objects (store (snd run)) !! "a.txt" = Some "one"
  /\ pending (snd run) = [{| cacheUrl := "http://h/"; cacheTtl := Some 604800 |}].
Proof. vm_compute. repeat split. Qed.

(** ** The date format of [getlastmodified] *)

Section HttpDate.

Lemma allRange_spec (k : nat) (lo : Z) (f : Z -> bool) :
  allRange k lo f = true ->
  forall z, lo <= z < lo + 2 ^ Z.of_nat k -> f z = true.
Proof.
  revert lo; induction k as [|k IH]; intros lo H z Hz.
  - cbn in *. now replace z with lo by lia.
  - cbn [allRange] in H. apply andb_true_iff in H as [H1 H2].
    rewrite Nat2Z.inj_succ, Z.pow_succ_r in Hz by lia.
    destruct (Z_lt_ge_dec z (lo + 2 ^ Z.of_nat k)).
    + apply (IH lo H1). lia.
    + apply (IH _ H2). lia.
Qed.

Lemma pad2_digits (n : Z) : 0 <= n < 100 -> JS.pad2 n = digits2 n.
Proof.
  intros Hn.
  assert (H : allRange 7 0 pad2_ok = true) by (vm_compute; reflexivity).
  pose proof (allRange_spec 7 0 pad2_ok H n) as Hok.
  unfold pad2_ok in Hok.
  destruct (Z.leb_spec 100 n); [lia |].
  apply String.eqb_eq, Hok. cbn. lia.
Qed.

Lemma pad4_digits (n : Z) : 0 <= n < 10000 -> JS.pad4 n = digits4 n.
Proof.
  intros Hn.
  assert (H : allRange 14 0 pad4_ok = true) by (vm_compute; reflexivity).
  pose proof (allRange_spec 14 0 pad4_ok H n) as Hok.
  unfold pad4_ok in Hok.
  destruct (Z.leb_spec 10000 n); [lia |].
  apply String.eqb_eq, Hok. cbn. lia.
Qed.

Lemma era_checked : allRange 18 0 era_ok = true.
Proof. vm_compute. reflexivity. Qed.

Lemma civilInEra_shift (era doe : Z) :
  JS.civilInEra era doe
  = let '(y, m, d) := JS.civilInEra 0 doe in (y + era * 400, m, d).
Proof. unfold JS.civilInEra. cbv zeta. f_equal. f_equal. lia. Qed.

Lemma civil_bounds (day : Z) :
  0 <= day < 2932897 ->
  let '(y, m, d) := JS.civil day in
  1970 <= y <= 9999 /\ 1 <= m <= 12 /\ 1 <= d <= 31.
Proof.
  intros Hday. unfold JS.civil. cbv zeta.
  set (z := day + 719468).
  set (era := z / 146097).
  set (doe := z - era * 146097).
  assert (Hera : 4 <= era <= 24 /\ 0 <= doe < 146097
                 /\ (era = 4 -> 135080 <= doe) /\ (era = 24 -> doe < 146037)).
  { subst doe era z. Z.div_mod_to_equations. lia. }
  destruct Hera as (Hera & Hdoe & Hlo & Hhi).
  pose proof (allRange_spec 18 0 era_ok era_checked doe) as Hok.
  rewrite civilInEra_shift.
  unfold era_ok in Hok.
  destruct (JS.civilInEra 0 doe) as [[y m] d].
  destruct (Z.leb_spec 146097 doe); [lia |].
  cbn [orb] in Hok.
  assert (Hin : 0 <= doe < 0 + 2 ^ Z.of_nat 18) by (cbn; lia).
  specialize (Hok Hin).
  rewrite !andb_true_iff, !orb_true_iff, !Z.leb_le, !Z.ltb_lt in Hok.
  clear Hin. lia.
Qed.

Lemma weekDayName_in (x : Z) : 0 <= x < 7 -> In (JS.weekDayName x) weekDays.
Proof.
  intros Hx. unfold JS.weekDayName.
  destruct (Z.to_nat x) as [|[|[|[|[|[|[|n]]]]]]] eqn:E; cbn; auto 10; lia.
Qed.

Lemma monthName_in (m : Z) : 1 <= m <= 12 -> In (JS.monthName m) months.
Proof.
  intros Hm. unfold JS.monthName.
  destruct (Z.to_nat (m - 1)) as [|[|[|[|[|[|[|[|[|[|[|[|n]]]]]]]]]]]] eqn:E;
    cbn; auto 15; lia.
Qed.

(** For an upload time within the years 1970 to 9999, [toUTCString] prints
    the fixed-width date of HTTP. *)
Lemma toUTCString_http_date (t : Z) :
  0 <= t < 253402300800000 -> httpDate (JS.toUTCString t).
Proof.
  intros Ht. unfold httpDate, JS.toUTCString, JS.msPerDay. cbv zeta.
  set (day := t / 86400000). set (ms := t mod 86400000).
  assert (Hday : 0 <= day < 2932897)
    by (subst day; Z.div_mod_to_equations; lia).
  assert (Hms : 0 <= ms < 86400000) by (subst ms; apply Z.mod_pos_bound; lia).
  pose proof (civil_bounds day Hday) as Hc.
  destruct (JS.civil day) as [[y m] d]. destruct Hc as (Hy & Hm & Hd).
  assert (Hh : 0 <= ms / 3600000 < 24) by (Z.div_mod_to_equations; lia).
  assert (Hmi : 0 <= ms / 60000 mod 60 < 60) by (apply Z.mod_pos_bound; lia).
  assert (Hs : 0 <= ms / 1000 mod 60 < 60) by (apply Z.mod_pos_bound; lia).
  exists (JS.weekDayName ((day + 4) mod 7)), (JS.monthName m), d, y,
         (ms / 3600000), (ms / 60000 mod 60), (ms / 1000 mod 60).
  split; [apply weekDayName_in, Z.mod_pos_bound; lia |].
  split; [now apply monthName_in |].
  repeat (split; [assumption |]).
  destruct (Z.ltb_spec y 0); [lia |].
  rewrite Z.abs_eq by lia.
  rewrite !pad2_digits, pad4_digits by lia.
  reflexivity.
Qed.

End HttpDate.

(** ** The collection listing *)

Section Segments.








End Segments.

Section Rendering.

Lemma fold_left_append (f : R2Object -> string) (objs : list R2Object)
    (init : string) :
  fold_left (fun xml obj => xml +:+ f obj) objs init
  = init +:+ concatAll (map f objs).
Proof.
  revert init; induction objs as [|obj objs IH]; intros init; cbn.
  - now rewrite app_empty_r.
  - now rewrite IH, app_assoc_str.
Qed.

Lemma includes_concatAll (x : string) (l : list string) :
  In x l -> JS.includes (concatAll l) x = true.
Proof.
  induction l as [|y l IH]; cbn; [contradiction |].
  intros [-> | Hin].
  - apply includes_spec. now exists "", (concatAll l).
  - now apply includes_suffix, IH.
Qed.

(** Splitting a template at a given segment. *)
Ltac segment p r :=
  apply includes_spec; exists p, r;
  unfold objectResponse, collectionResponse, element, LF;
  rewrite ?app_assoc_str; cbn [String.append]; reflexivity.

Lemma objectResponse_getcontentlength (obj : R2Object) :
  JS.includes (objectResponse obj)
    (element "getcontentlength" (JS.decimal (objSize obj))) = true.
Proof.
  segment
    (LF +:+ "  <D:response>" +:+ LF +:+
     "    <D:href>" +:+ JS.encodeURI ("/" +:+ key obj) +:+ "</D:href>" +:+ LF +:+
     "    <D:propstat>" +:+ LF +:+ "      <D:prop>" +:+ LF +:+ "        " +:+
     (if JS.endsWith (key obj) "/"
      then "<D:resourcetype><D:collection/></D:resourcetype>"
      else "<D:resourcetype/>") +:+ LF +:+
     "        <D:displayname>" +:+
     JS.or_else (JS.pop (JS.filter_truthy (JS.split "/" (key obj)))) (key obj)
     +:+ "</D:displayname>" +:+ LF +:+ "        ")
    (LF +:+ "        <D:getlastmodified>" +:+ JS.toUTCString (uploaded obj) +:+
     "</D:getlastmodified>" +:+ LF +:+ "      </D:prop>" +:+ LF +:+
     "      <D:status>HTTP/1.1 200 OK</D:status>" +:+ LF +:+
     "    </D:propstat>" +:+ LF +:+ "  </D:response>").
Qed.

Lemma objectResponse_getlastmodified (obj : R2Object) :
  JS.includes (objectResponse obj)
    (element "getlastmodified" (JS.toUTCString (uploaded obj))) = true.
Proof.
  segment
    (LF +:+ "  <D:response>" +:+ LF +:+
     "    <D:href>" +:+ JS.encodeURI ("/" +:+ key obj) +:+ "</D:href>" +:+ LF +:+
     "    <D:propstat>" +:+ LF +:+ "      <D:prop>" +:+ LF +:+ "        " +:+
     (if JS.endsWith (key obj) "/"
      then "<D:resourcetype><D:collection/></D:resourcetype>"
      else "<D:resourcetype/>") +:+ LF +:+
     "        <D:displayname>" +:+
     JS.or_else (JS.pop (JS.filter_truthy (JS.split "/" (key obj)))) (key obj)
     +:+ "</D:displayname>" +:+ LF +:+
     "        <D:getcontentlength>" +:+ JS.decimal (objSize obj) +:+
     "</D:getcontentlength>" +:+ LF +:+ "        ")
    (LF +:+ "      </D:prop>" +:+ LF +:+
     "      <D:status>HTTP/1.1 200 OK</D:status>" +:+ LF +:+
     "    </D:propstat>" +:+ LF +:+ "  </D:response>").
Qed.

Lemma objectResponse_resourcetype (obj : R2Object) :
  JS.includes (objectResponse obj)
    (if JS.endsWith (key obj) "/"
     then "<D:resourcetype><D:collection/></D:resourcetype>"
     else "<D:resourcetype/>") = true.
Proof.
  segment
    (LF +:+ "  <D:response>" +:+ LF +:+
     "    <D:href>" +:+ JS.encodeURI ("/" +:+ key obj) +:+ "</D:href>" +:+ LF +:+
     "    <D:propstat>" +:+ LF +:+ "      <D:prop>" +:+ LF +:+ "        ")
    (LF +:+ "        <D:displayname>" +:+
     JS.or_else (JS.pop (JS.filter_truthy (JS.split "/" (key obj)))) (key obj)
     +:+ "</D:displayname>" +:+ LF +:+
     "        <D:getcontentlength>" +:+ JS.decimal (objSize obj) +:+
     "</D:getcontentlength>" +:+ LF +:+
     "        <D:getlastmodified>" +:+ JS.toUTCString (uploaded obj) +:+
     "</D:getlastmodified>" +:+ LF +:+ "      </D:prop>" +:+ LF +:+
     "      <D:status>HTTP/1.1 200 OK</D:status>" +:+ LF +:+
     "    </D:propstat>" +:+ LF +:+ "  </D:response>").
Qed.





End Rendering.

(** When the store lists, the answer is 207 and the document is the
    element of the collection followed by one element per listed object,
    in the order of the listing, inside [D:multistatus]. *)
Lemma handleFileList_renders {S : Type} (P : Platform) (B : Bucket S)
    (request : Request) (listResult : option (list R2Object)) (s' : S)
    (w : World S) :
  let path := normalizePath (pathname (url request)) in
  bucket_list B (listPrefix path) (store w) = (Normal listResult, s') ->
  handleFileList P B request w
  = (Normal {| body :=
                 multistatusOpen +:+ collectionResponse path
                 +:+ concatAll (map objectResponse (default [] listResult))
                 +:+ multistatusClose;
               status := 207;
               headers := listingHeaders P |},
     called (CallList (listPrefix path)) s' w).
Proof.
  intros path Hlist. subst path.
  unfold handleFileList, tryCatch, bind, MY_BUCKET_list, ret.
  rewrite Hlist. cbv beta iota zeta.
  now rewrite fold_left_append, !app_assoc_str.
Qed.

(** C3 as stated fails: in the listing of [/x] the folder [x/sub/] is
    rendered as a collection and does carry a [getcontentlength] element. *)
Lemma C3_folder_has_getcontentlength :
  let folder := {| key := "x/sub/"; objSize := 0; uploaded := 951782400000 |} in
  let run :=
    handleFileList refPlatform memBucket (mkRequest "http://h" "/x")
      (freshWorld exampleStore) in
  JS.endsWith (key folder) "/" = true
  /\ JS.includes (bodyOf run) (objectResponse folder) = true
  /\ JS.includes (objectResponse folder)
       "<D:resourcetype><D:collection/></D:resourcetype>" = true
  /\ JS.includes (objectResponse folder)
       "<D:getcontentlength>0</D:getcontentlength>" = true.
Proof. vm_compute. repeat split. Qed.

(** C3, amended: in every rendered collection listing, every child, folder
    or not, is rendered with a [getcontentlength] element holding its byte
    size and a [getlastmodified] element holding its upload time as
    [toUTCString] prints it, which for the years 1970 to 9999 is the
    RFC 1123 date in GMT; a child whose key ends in '/' gets the
    [collection] resource type and every other child the empty one. *)
Theorem C3_children_rendering :
  forall (S : Type) (P : Platform) (B : Bucket S) (request : Request)
         (listResult : option (list R2Object)) (s' : S) (w : World S)
         (obj : R2Object),
    bucket_list B (listPrefix (normalizePath (pathname (url request)))) (store w)
    = (Normal listResult, s') ->
    In obj (default [] listResult) ->
    exists response,
      fst (handleFileList P B request w) = Normal response
      /\ status response = 207
      /\ JS.includes (body response) (objectResponse obj) = true
      /\ JS.includes (objectResponse obj)
           (element "getcontentlength" (JS.decimal (objSize obj))) = true
      /\ JS.includes (objectResponse obj)
           (element "getlastmodified" (JS.toUTCString (uploaded obj))) = true
      /\ (0 <= uploaded obj < 253402300800000 ->
          httpDate (JS.toUTCString (uploaded obj)))
      /\ JS.includes (objectResponse obj)
           (if JS.endsWith (key obj) "/"
            then "<D:resourcetype><D:collection/></D:resourcetype>"
            else "<D:resourcetype/>") = true.
Proof.
  intros S P B request listResult s' w obj Hlist Hin.
  rewrite (handleFileList_renders P B request listResult s' w Hlist).
  eexists; split; [reflexivity |]. cbn [status body].
  split; [reflexivity |].
  split.
  - rewrite <- app_assoc_str. apply includes_within, includes_concatAll.
    now apply in_map.
  - split; [apply objectResponse_getcontentlength |].
    split; [apply objectResponse_getlastmodified |].
    split; [apply toUTCString_http_date |].
    apply objectResponse_resourcetype.
Qed.

Lemma C3_children_rendering_witness :
  let file := {| key := "x/a.txt"; objSize := 10; uploaded := 1704067200000 |} in
  exists response,
    fst (handleFileList refPlatform memBucket (mkRequest "http://h" "/x/")
           (freshWorld exampleStore)) = Normal response
    /\ status response = 207
    /\ JS.includes (body response) (objectResponse file) = true
    /\ JS.includes (objectResponse file)
         "<D:getcontentlength>10</D:getcontentlength>" = true
    /\ JS.includes (objectResponse file)
         "<D:getlastmodified>Mon, 01 Jan 2024 00:00:00 GMT</D:getlastmodified>"
       = true
    /\ httpDate "Mon, 01 Jan 2024 00:00:00 GMT"
    /\ JS.includes (objectResponse file) "<D:resourcetype/>" = true.
Proof.
  destruct (C3_children_rendering MemStore refPlatform memBucket
              (mkRequest "http://h" "/x/")
              (Some (mem_list "x/" exampleStore)) exampleStore
              (freshWorld exampleStore)
              {| key := "x/a.txt"; objSize := 10; uploaded := 1704067200000 |}
              eq_refl)
    as (response & Hrun & Hstatus & Hbody & Hlen & Hdate & Hhttp & Htype).
  - vm_compute. auto.
  - exists response. repeat split; try assumption.
    apply Hhttp. cbn. lia.
Defined.

(** C8 fails on the code in two places.  For the request path [/a//],
    whose last non-empty segment is [a], the collection's own element has
    an empty display name, although the children's display name, computed
    a few lines below, does skip empty segments: a child with the key
    [a//] is shown as [a].  And the display name is written into the
    document as it is, while the [href] next to it is escaped: after
    [PUT /%3CD:response%3E] the listing of the root, which has one child,
    has three openings of a [response] element and two closings. *)
Theorem C8_listing_defects :
  let listing :=
    handleFileList refPlatform memBucket (mkRequest "http://h" "/a//")
      (freshWorld emptyStore) in
  let sibling := {| key := "a//"; objSize := 0; uploaded := 0 |} in
  let stored :=
    snd (handlePutFile refPlatform memBucket
           (putRequest "/%3CD:response%3E" "x") (freshWorld emptyStore)) in
  let rootListing :=
    handleFileList refPlatform memBucket (mkRequest "http://h" "/") stored in
  ("/a//" = "/" +:+ "a" +:+ slashes 2
   /\ (status <$> match fst listing with Normal r => Some r | Throw _ => None end)
      = Some 207
   /\ JS.includes (bodyOf listing) (element "displayname" "a") = false
   /\ JS.includes (bodyOf listing) (element "displayname" "") = true
   /\ JS.includes (objectResponse sibling) (element "displayname" "a") = true)
  /\ (mem_list "" (store stored)
      = [{| key := "<D:response>"; objSize := 1; uploaded := 1704067200000 |}]
     /\ (status <$> match fst rootListing with
                    | Normal r => Some r
                    | Throw _ => None
                    end) = Some 207
     /\ JS.includes (bodyOf rootListing)
          (element "href" "/%3CD:response%3E") = true
     /\ JS.includes (bodyOf rootListing)
          (element "displayname" "<D:response>") = true
     /\ occurrences (bodyOf rootListing) "<D:response>" = 3%nat
     /\ occurrences (bodyOf rootListing) "</D:response>" = 2%nat).
Proof. vm_compute. repeat split. Qed.



(** * Further properties of the handlers *)

(** ** Reversal, suffixes and blank strings *)

Section Blank.

Lemma rev_app_append (s acc : string) :
  String.rev_app s acc = String.rev_app s "" +:+ acc.
Proof.
  revert acc; induction s as [|a s IH]; intros acc; cbn; [reflexivity |].
  rewrite (IH (String a acc)), (IH (String a "")), app_assoc_str.
  reflexivity.
Qed.

Lemma rev_cons (a : ascii) (s : string) :
  String.rev (String a s) = String.rev s +:+ String a "".
Proof. unfold String.rev. cbn. apply rev_app_append. Qed.

Lemma rev_snoc (s : string) (a : ascii) :
  String.rev (s +:+ String a "") = String a (String.rev s).
Proof.
  induction s as [|b s IH]; [reflexivity |].
  cbn [String.append]. now rewrite !rev_cons, IH.
Qed.

Lemma append_empty (s t : string) : s +:+ t = "" -> s = "" /\ t = "".
Proof. destruct s; cbn; [auto | discriminate]. Qed.

Lemma rev_empty (s : string) : String.rev s = "" -> s = "".
Proof.
  destruct s as [|a s]; [reflexivity |].
  rewrite rev_cons. intros H. apply append_empty in H as [_ H]. discriminate.
Qed.

Lemma endsWith_snoc (s : string) (a : ascii) :
  JS.endsWith (s +:+ String a "") (String a "") = true.
Proof.
  unfold JS.endsWith. rewrite rev_snoc. cbn. now rewrite Ascii.eqb_refl.
Qed.

Lemma endsWith_last (s : string) (a : ascii) :
  JS.endsWith s (String a "") = true -> exists p, s = p +:+ String a "".
Proof.
  unfold JS.endsWith. intros H.
  change (String.rev (String a "")) with (String a "") in H.
  destruct (String.rev s) as [|b r] eqn:E; [discriminate |].
  cbn in H. destruct (Ascii.eqb_spec b a) as [-> | _]; [| discriminate].
  exists (String.rev r).
  assert (Hs : String.rev (String.rev r +:+ String a "") = String.rev s).
  { rewrite rev_snoc, E. f_equal.
    clear. induction r as [|c r IH]; [reflexivity |].
    now rewrite rev_cons, rev_snoc, IH. }
  clear E H. revert Hs. generalize (String.rev r +:+ String a "") as t.
  intros t Ht.
  assert (Hinv : forall u, String.rev (String.rev u) = u).
  { induction u as [|c u IH]; [reflexivity |].
    now rewrite rev_cons, rev_snoc, IH. }
  rewrite <- (Hinv s), <- (Hinv t). now f_equal.
Qed.

(** Scanning white space from the end never gets past a slash. *)
Lemma trimStart_rev_slash (n : nat) (s : string) :
  (String.length s <= n)%nat -> JS.trimStart_rev (s +:+ "/") <> "".
Proof.
  revert s; induction n as [|n IH]; intros s Hn.
  - destruct s; [discriminate | cbn in Hn; lia].
  - destruct s as [|a [|b [|c s]]]; cbn [String.append JS.trimStart_rev].
    + discriminate.
    + destruct (JS.ws1 a); [discriminate | cbn; discriminate].
    + destruct (JS.ws1 a).
      { apply (IH (String b "")). cbn in *. lia. }
      destruct (JS.ws2 b a); [discriminate |].
      cbn. discriminate.
    + cbn [String.length] in Hn.
      destruct (JS.ws1 a); [apply (IH (String b (String c s))); cbn; lia |].
      destruct (JS.ws2 b a); [apply (IH (String c s)); cbn; lia |].
      destruct (JS.ws3 c b a); [apply IH; lia | discriminate].
Qed.

(** A string that starts with a slash is not blank. *)
Lemma trim_slash_not_blank (s : string) :
  JS.isEmpty (JS.trim (String "/" s)) = false.
Proof.
  assert (Hstart : JS.trimStart (String "/" s) = String "/" s)
    by (destruct s as [|b [|c s]]; reflexivity).
  unfold JS.trim, JS.trimEnd. rewrite Hstart, rev_cons.
  pose proof (trimStart_rev_slash _ (String.rev s) (Nat.le_refl _)) as H.
  destruct (String.rev (JS.trimStart_rev (String.rev s +:+ "/"))) eqn:E;
    [| reflexivity].
  apply rev_empty in E. contradiction.
Qed.

End Blank.

(** ** Which key a path names *)

Section Keys.

Lemma decodeURIComponent_plain_char (c : ascii) (r : string) :
  Ascii.eqb c "%" = false ->
  JS.decodeURIComponent (String c r)
  = match JS.decodeURIComponent r with
    | Normal s => Normal (String c s)
    | Throw m => Throw m
    end.
Proof.
  intros Hc. cbn [JS.decodeURIComponent]. rewrite Hc. cbn [negb].
  destruct (JS.decodeURIComponent r); cbn; [now rewrite ascii_N_ascii | reflexivity].
Qed.

Lemma stripLeadingSlashes_no_slash (s : string) :
  JS.startsWith (JS.stripLeadingSlashes s) "/" = false.
Proof.
  induction s as [|a s IH]; [reflexivity |].
  cbn [JS.stripLeadingSlashes].
  destruct (Ascii.eqb a "/") eqn:E; [exact IH |].
  cbn. now rewrite E.
Qed.

Lemma stripLeadingSlashes_id (s : string) :
  JS.startsWith s "/" = false -> JS.stripLeadingSlashes s = s.
Proof.
  destruct s as [|a s]; [reflexivity |]. cbn.
  now destruct (Ascii.eqb a "/").
Qed.

Lemma includes_dotdot_slash (s : string) :
  JS.includes (String "/" s) ".." = JS.includes s "..".
Proof. reflexivity. Qed.

Lemma hexval_not_percent (h : ascii) (x : N) :
  JS.hexval h = Some x -> Ascii.eqb h "%" = false.
Proof.
  intros H. destruct (Ascii.eqb_spec h "%") as [-> | _];
    [discriminate H | reflexivity].
Qed.

Lemma escapesOk_escape (p h l : ascii) (B : N) (rest : string) :
  JS.escape p h l = Some B ->
  escapesOk (String p (String h (String l rest))) = escapesOk rest.
Proof.
  unfold JS.escape. intros H.
  destruct (Ascii.eqb p "%") eqn:Hp; [| discriminate].
  destruct (JS.hexval h) as [x |] eqn:Hh; [| discriminate].
  destruct (JS.hexval l) as [y |] eqn:Hl; [| discriminate].
  cbn [escapesOk startsWithHexPair].
  now rewrite Hp, Hh, Hl, (hexval_not_percent h x Hh), (hexval_not_percent l y Hl).
Qed.

(** [decodeURIComponent] returns only when every ['%'] is followed by two
    hexadecimal digits, and all it ever throws is [URIError]. *)
Lemma decodeURIComponent_cases (n : nat) (s : string) :
  (String.length s <= n)%nat ->
  match JS.decodeURIComponent s with
  | Normal _ => escapesOk s = true
  | Throw m => m = JS.URIError
  end.
Proof.
  revert s; induction n as [|n IH]; intros s Hn.
  { destruct s; [reflexivity | cbn in Hn; lia]. }
  assert (Hrest : forall bytes rest whole,
             (String.length rest <= n)%nat ->
             (escapesOk rest = true -> escapesOk whole = true) ->
             match JS.emit bytes (JS.decodeURIComponent rest) with
             | Normal _ => escapesOk whole = true
             | Throw m => m = JS.URIError
             end).
  { intros bytes rest whole Hlen Hwhole. pose proof (IH rest Hlen) as H.
    destruct (JS.decodeURIComponent rest); cbn [JS.emit]; auto. }
  destruct s as [|c r]; [reflexivity |]. cbn [String.length] in Hn.
  cbn [JS.decodeURIComponent].
  destruct (Ascii.eqb c "%") eqn:Hc; cbn [negb].
  2: { apply Hrest; [lia |]. intros H. cbn [escapesOk]. now rewrite Hc, H. }
  destruct r as [|h1 [|l1 r1]]; [reflexivity | reflexivity |].
  cbv beta iota. cbn [String.length] in Hn.
  destruct (JS.escape c h1 l1) as [B |] eqn:E1; [| reflexivity].
  destruct (B <? 128)%N.
  { apply Hrest; [lia |]. now rewrite (escapesOk_escape _ _ _ _ _ E1). }
  destruct ((B <? 192)%N || (247 <? B)%N); [reflexivity |].
  destruct r1 as [|p2 [|h2 [|l2 r2]]]; try reflexivity.
  cbv beta iota. cbn [String.length] in Hn.
  destruct (JS.escape p2 h2 l2) as [B2 |] eqn:E2; [| reflexivity].
  destruct (B <? 224)%N.
  { destruct (JS.utf8_2 B B2); [| reflexivity].
    apply Hrest; [lia |].
    now rewrite (escapesOk_escape _ _ _ _ _ E1), (escapesOk_escape _ _ _ _ _ E2). }
  destruct r2 as [|p3 [|h3 [|l3 r3]]]; try reflexivity.
  cbv beta iota. cbn [String.length] in Hn.
  destruct (JS.escape p3 h3 l3) as [B3 |] eqn:E3; [| reflexivity].
  destruct (B <? 240)%N.
  { destruct (JS.utf8_3 B B2 B3); [| reflexivity].
    apply Hrest; [lia |].
    now rewrite (escapesOk_escape _ _ _ _ _ E1), (escapesOk_escape _ _ _ _ _ E2),
      (escapesOk_escape _ _ _ _ _ E3). }
  destruct r3 as [|p4 [|h4 [|l4 r4]]]; try reflexivity.
  cbv beta iota. cbn [String.length] in Hn.
  destruct (JS.escape p4 h4 l4) as [B4 |] eqn:E4; [| reflexivity].
  destruct (JS.utf8_4 B B2 B3 B4); [| reflexivity].
  apply Hrest; [lia |].
  now rewrite (escapesOk_escape _ _ _ _ _ E1), (escapesOk_escape _ _ _ _ _ E2),
    (escapesOk_escape _ _ _ _ _ E3), (escapesOk_escape _ _ _ _ _ E4).
Qed.

Lemma escapesOk_bad_escape (p r : string) :
  startsWithHexPair r = false -> escapesOk (p +:+ String "%" r) = false.
Proof.
  intros Hr. induction p as [|a p IH]; cbn [String.append escapesOk].
  - cbn [Ascii.eqb Bool.eqb]. now rewrite Hr.
  - rewrite IH. apply andb_false_r.
Qed.

(** A bad escape, wherever it stands: a ['%'] that two hexadecimal digits
    do not follow makes the decoding throw. *)
Lemma decodeURIComponent_bad_escape (p r : string) :
  startsWithHexPair r = false ->
  JS.decodeURIComponent (p +:+ String "%" r) = Throw JS.URIError.
Proof.
  intros Hr.
  pose proof (decodeURIComponent_cases _ (p +:+ String "%" r) (Nat.le_refl _))
    as H.
  rewrite (escapesOk_bad_escape p r Hr) in H.
  destruct (JS.decodeURIComponent (p +:+ String "%" r)) as [t | m];
    [discriminate | now subst].
Qed.

End Keys.

Section KeyTheorems.

Context {S : Type}.
Variable P : Platform.
Variable B : Bucket S.

Lemma putFilePath_of_slash_path (rest filePath : string) :
  JS.decodeURIComponent (String "/" rest) = Normal filePath ->
  putFilePath (String "/" rest)
  = Normal (if JS.includes filePath ".." then None
            else Some (JS.stripLeadingSlashes filePath)).
Proof.
  intros Hd.
  assert (Hblank : JS.isEmpty (JS.trim filePath) = false).
  { rewrite decodeURIComponent_plain_char in Hd by reflexivity.
    destruct (JS.decodeURIComponent rest); [| discriminate].
    injection Hd as <-. apply trim_slash_not_blank. }
  unfold putFilePath. rewrite Hd, Hblank, orb_false_r.
  now destruct (JS.includes filePath "..").
Qed.

Lemma putFilePath_of_plain_key (rest k : string) :
  JS.decodeURIComponent rest = Normal k ->
  JS.includes k ".." = false ->
  putFilePath (String "/" rest) = Normal (Some (JS.stripLeadingSlashes k)).
Proof.
  intros Hd Hdd.
  rewrite (putFilePath_of_slash_path rest (String "/" k))
    by now rewrite decodeURIComponent_plain_char, Hd.
  now rewrite includes_dotdot_slash, Hdd.
Qed.

(** The blank test of [handlePutFile] (line 94) is made on a path that
    still starts with '/', so it never fires: for a URL path, PUT answers
    400 exactly when the decoded path contains "..". *)
Theorem put_rejects_only_traversal (request : Request) (rest filePath : string)
    (w : World S) :
  pathname (url request) = String "/" rest ->
  JS.decodeURIComponent (pathname (url request)) = Normal filePath ->
  putFilePath (pathname (url request))
  = Normal (if JS.includes filePath ".." then None
            else Some (JS.stripLeadingSlashes filePath))
  /\ match fst (handlePutFile P B request w) with
     | Normal response =>
         if JS.includes filePath ".." then status response = 400
         else status response = 201 \/ status response = 500
     | Throw _ => False
     end.
Proof.
  intros Hpath Hd.
  assert (Hk : putFilePath (pathname (url request))
               = Normal (if JS.includes filePath ".." then None
                         else Some (JS.stripLeadingSlashes filePath))).
  { rewrite Hpath in *. now apply putFilePath_of_slash_path. }
  split; [exact Hk |].
  destruct (JS.includes filePath "..") eqn:Hdd.
  - now rewrite (handlePutFile_rejects_dotdot P B request filePath w Hd Hdd).
  - apply (handlePutFile_stores P B request _ w Hk).
Qed.

(** Every key PUT hands to the store is free of ".." and does not start
    with '/'. *)
Theorem put_key_is_canonical (request : Request) (k : string) (w : World S) :
  putFilePath (pathname (url request)) = Normal (Some k) ->
  (exists contentType,
     calls (snd (handlePutFile P B request w))
     = calls w ++ [CallPut k (arrayBuffer request) contentType])
  /\ JS.startsWith k "/" = false
  /\ JS.includes k ".." = false.
Proof.
  intros Hk.
  split; [eexists; apply (handlePutFile_stores P B request k w Hk) |].
  unfold putFilePath in Hk.
  destruct (JS.decodeURIComponent (pathname (url request))) as [fp | m];
    [| discriminate].
  destruct (JS.includes fp "..") eqn:Hdd; [discriminate |].
  destruct (JS.isEmpty (JS.trim fp)); [discriminate |].
  cbn [orb] in Hk. injection Hk as <-.
  split; [apply stripLeadingSlashes_no_slash |].
  destruct (JS.includes (JS.stripLeadingSlashes fp) "..") eqn:E; [| reflexivity].
  apply includes_stripLeadingSlashes in E. congruence.
Qed.

(** PUT, GET and DELETE of one path act on the same key when the path is
    one slash followed by text whose decoding neither starts with a slash
    nor contains "..". *)
Theorem single_slash_path_names_one_key (request : Request) (rest k : string)
    (w : World S) :
  pathname (url request) = String "/" rest ->
  JS.decodeURIComponent rest = Normal k ->
  JS.startsWith k "/" = false ->
  JS.includes k ".." = false ->
  (exists contentType,
     calls (snd (handlePutFile P B request w))
     = calls w ++ [CallPut k (arrayBuffer request) contentType])
  /\ calls (snd (handleDeleteFile P B request w)) = calls w ++ [CallDelete k]
  /\ (rest <> "" ->
      calls (snd (handleGetFile P B request w)) = calls w ++ [CallGet k]).
Proof.
  intros Hpath Hd Hslash Hdd.
  assert (Hk : putFilePath (pathname (url request)) = Normal (Some k)).
  { rewrite Hpath, (putFilePath_of_plain_key rest k Hd Hdd).
    now rewrite stripLeadingSlashes_id. }
  assert (Hs : JS.decodeURIComponent (JS.slice1 (pathname (url request)))
               = Normal k) by now rewrite Hpath.
  split; [eexists; apply (handlePutFile_stores P B request k w Hk) |].
  split; [apply (handleDeleteFile_deletes P B request k w Hs Hdd) |].
  intros Hne. apply (handleGetFile_calls P B request k w Hs).
  rewrite Hpath. intros E. injection E as E. contradiction.
Qed.

(** With a second leading slash they do not: PUT strips every leading
    slash and writes [k], while GET and DELETE drop one character and
    act on [/k]. *)
Theorem double_slash_path_names_two_keys (request : Request) (rest k : string)
    (w : World S) :
  pathname (url request) = String "/" (String "/" rest) ->
  JS.decodeURIComponent rest = Normal k ->
  JS.startsWith k "/" = false ->
  JS.includes k ".." = false ->
  (exists contentType,
     calls (snd (handlePutFile P B request w))
     = calls w ++ [CallPut k (arrayBuffer request) contentType])
  /\ calls (snd (handleDeleteFile P B request w))
     = calls w ++ [CallDelete (String "/" k)]
  /\ calls (snd (handleGetFile P B request w))
     = calls w ++ [CallGet (String "/" k)].
Proof.
  intros Hpath Hd Hslash Hdd.
  assert (Hs : JS.decodeURIComponent (JS.slice1 (pathname (url request)))
               = Normal (String "/" k)).
  { rewrite Hpath. cbn [JS.slice1].
    now rewrite decodeURIComponent_plain_char, Hd by reflexivity. }
  assert (Hk : putFilePath (pathname (url request)) = Normal (Some k)).
  { rewrite Hpath in *. cbn [JS.slice1] in Hs.
    rewrite (putFilePath_of_plain_key _ _ Hs)
      by now rewrite includes_dotdot_slash.
    cbn. now rewrite stripLeadingSlashes_id. }
  split; [eexists; apply (handlePutFile_stores P B request k w Hk) |].
  split.
  - apply (handleDeleteFile_deletes P B request _ w Hs).
    now rewrite includes_dotdot_slash.
  - apply (handleGetFile_calls P B request _ w Hs).
    rewrite Hpath. discriminate.
Qed.

(** A '%' in the path that two hexadecimal digits do not follow, wherever
    it stands, makes GET, PUT and DELETE throw [URIError]: no answer is
    built, and the store and the cache are not touched. *)
Theorem bad_escape_throws (request : Request) (p r : string) (w : World S) :
  pathname (url request) = String "/" (p +:+ String "%" r) ->
  startsWithHexPair r = false ->
  handleGetFile P B request w = (Throw JS.URIError, w)
  /\ handlePutFile P B request w = (Throw JS.URIError, w)
  /\ handleDeleteFile P B request w = (Throw JS.URIError, w).
Proof.
  intros Hpath Hr.
  pose proof (decodeURIComponent_bad_escape p r Hr) as Hbad.
  unfold handleGetFile, handlePutFile, handleDeleteFile, putFilePath, bind, lift.
  rewrite Hpath. cbn [JS.slice1].
  rewrite decodeURIComponent_plain_char, Hbad by reflexivity.
  auto.
Qed.

End KeyTheorems.

(** ** Reading back, failing, and leaving the store alone *)

Section ReadBack.

Lemma memBucket_readsItsWrites : readsItsWrites memBucket.
Proof.
  intros k data contentType s s' Hput. cbn in *. unfold mem_put in Hput.
  destruct (bool_decide (k ∈ refused s)); [discriminate |].
  injection Hput as <-. cbn. now rewrite lookup_insert_eq.
Qed.

Lemma memBucket_forgetsItsDeletes : forgetsItsDeletes memBucket.
Proof.
  intros k s s' Hdel. cbn in *. injection Hdel as <-. cbn.
  now rewrite lookup_delete_eq.
Qed.

Context {S : Type}.
Variable P : Platform.
Variable B : Bucket S.

Lemma handlePutFile_store (request : Request) (k : string) (w : World S) :
  putFilePath (pathname (url request)) = Normal (Some k) ->
  store (snd (handlePutFile P B request w))
  = snd (bucket_put B k (arrayBuffer request)
           (JS.or_else (mimeTypes P (extensionOf P k)) "application/octet-stream")
           (store w)).
Proof.
  intros Hk.
  unfold handlePutFile, bind, lift, tryCatch, ret, MY_BUCKET_put,
    waitUntil_cache_delete. rewrite Hk.
  destruct (bucket_put B k _ _ (store w)) as [[[] | m] s]; cbn; [| reflexivity].
  destruct (newURL P "/" (href (url request))); reflexivity.
Qed.

Lemma handleDeleteFile_store (request : Request) (k : string) (w : World S) :
  JS.decodeURIComponent (JS.slice1 (pathname (url request))) = Normal k ->
  JS.includes k ".." = false ->
  store (snd (handleDeleteFile P B request w))
  = snd (bucket_delete B k (store w)).
Proof.
  intros Hd Hi.
  unfold handleDeleteFile, bind, lift, tryCatch, ret, MY_BUCKET_delete,
    waitUntil_cache_delete. rewrite Hd, Hi.
  destruct (bucket_delete B k (store w)) as [[[] | m] s]; cbn; [| reflexivity].
  match goal with |- context [newURL P ?d ?o] => destruct (newURL P d o) end;
    reflexivity.
Qed.

(** On a store that reads its writes, a GET that follows a PUT of the same
    single-slash path answers 200 with exactly the bytes that were put,
    whether or not the PUT managed to schedule its eviction, provided the
    key holds no NUL, line feed or carriage return (a [Content-Disposition]
    with one of them makes the GET throw). *)
Theorem put_then_get_returns_body (request : Request) (rest k : string)
    (w : World S) (s' : S) :
  readsItsWrites B ->
  pathname (url request) = String "/" rest ->
  rest <> "" ->
  JS.decodeURIComponent rest = Normal k ->
  JS.startsWith k "/" = false ->
  JS.includes k ".." = false ->
  JS.validHeaderValue k = true ->
  bucket_put B k (arrayBuffer request)
    (JS.or_else (mimeTypes P (extensionOf P k)) "application/octet-stream")
    (store w) = (Normal tt, s') ->
  match fst (handleGetFile P B request (snd (handlePutFile P B request w))) with
  | Normal response =>
      status response = 200 /\ body response = arrayBuffer request
  | Throw _ => False
  end.
Proof.
  intros Hlaw Hpath Hne Hd Hslash Hdd Hvalid Hput.
  assert (Hk : putFilePath (pathname (url request)) = Normal (Some k)).
  { rewrite Hpath, (putFilePath_of_plain_key rest k Hd Hdd).
    now rewrite stripLeadingSlashes_id. }
  assert (Hs : JS.decodeURIComponent (JS.slice1 (pathname (url request)))
               = Normal k) by now rewrite Hpath.
  assert (Hroot : pathname (url request) <> "/").
  { rewrite Hpath. intros E. injection E as E. contradiction. }
  set (w1 := snd (handlePutFile P B request w)).
  destruct (handleGetFile_fetches P B request k w1 Hs Hroot Hvalid)
    as (_ & _ & Hget).
  assert (Hstore : store w1 = s').
  { subst w1. now rewrite (handlePutFile_store request k w Hk), Hput. }
  rewrite Hstore, (Hlaw _ _ _ _ _ Hput) in Hget.
  destruct (fst (handleGetFile P B request w1)); [exact Hget | discriminate].
Qed.

(** On a store that forgets what is deleted, a GET that follows a
    successful DELETE of the same path answers 404. *)
Theorem delete_then_get_answers_404 (request : Request) (k : string)
    (w : World S) (s' : S) :
  forgetsItsDeletes B ->
  pathname (url request) <> "/" ->
  JS.decodeURIComponent (JS.slice1 (pathname (url request))) = Normal k ->
  JS.includes k ".." = false ->
  bucket_delete B k (store w) = (Normal tt, s') ->
  match fst (handleGetFile P B request (snd (handleDeleteFile P B request w))) with
  | Normal response => status response = 404
  | Throw _ => False
  end.
Proof.
  intros Hlaw Hroot Hd Hdd Hdel.
  set (w1 := snd (handleDeleteFile P B request w)).
  assert (Hstore : store w1 = s').
  { subst w1. now rewrite (handleDeleteFile_store request k w Hd Hdd), Hdel. }
  rewrite (handleGetFile_missing P B request k w1 Hd Hroot);
    [reflexivity |].
  rewrite Hstore. exact (Hlaw _ _ _ Hdel).
Qed.

(** When the store's [put] throws, PUT answers 500 with the store's
    message in the body, and schedules no eviction. *)
Theorem put_store_failure_answers_500 (request : Request) (k m : string)
    (s1 : S) (w : World S) :
  putFilePath (pathname (url request)) = Normal (Some k) ->
  bucket_put B k (arrayBuffer request)
    (JS.or_else (mimeTypes P (extensionOf P k)) "application/octet-stream")
    (store w) = (Throw m, s1) ->
  fst (handlePutFile P B request w)
  = Normal {| body := "Failed to upload file: " +:+ m; status := 500;
              headers := corsHeaders P |}
  /\ pending (snd (handlePutFile P B request w)) = pending w.
Proof.
  intros Hk Hput.
  unfold handlePutFile, bind, lift, tryCatch, ret, MY_BUCKET_put.
  rewrite Hk. cbv beta iota zeta. rewrite Hput. auto.
Qed.

(** When the store's [delete] throws, DELETE answers 500 with the store's
    message in the body, and schedules no eviction. *)
Theorem delete_store_failure_answers_500 (request : Request)
    (filePath m : string) (s1 : S) (w : World S) :
  JS.decodeURIComponent (JS.slice1 (pathname (url request))) = Normal filePath ->
  JS.includes filePath ".." = false ->
  bucket_delete B filePath (store w) = (Throw m, s1) ->
  fst (handleDeleteFile P B request w)
  = Normal {| body := "Failed to delete file: " +:+ m; status := 500;
              headers := corsHeaders P |}
  /\ pending (snd (handleDeleteFile P B request w)) = pending w.
Proof.
  intros Hd Hdd Hdel.
  unfold handleDeleteFile, bind, lift, tryCatch, ret, MY_BUCKET_delete.
  rewrite Hd. cbv beta iota zeta. rewrite Hdd, Hdel. auto.
Qed.

(** DELETE builds the listing URL after the object is gone: when the URL
    constructor throws on the directory, the answer is 500 with its
    message although the store has deleted the object, and nothing is
    evicted. *)
Theorem delete_answers_500_after_deleting (request : Request)
    (parent leaf m : string) (s' : S) (w : World S) :
  JS.decodeURIComponent (JS.slice1 (pathname (url request)))
  = Normal (parent +:+ "/" +:+ leaf) ->
  JS.includes (parent +:+ "/" +:+ leaf) ".." = false ->
  JS.includes leaf "/" = false ->
  bucket_delete B (parent +:+ "/" +:+ leaf) (store w) = (Normal tt, s') ->
  newURL P ("/" +:+ parent) (origin (url request)) = Throw m ->
  handleDeleteFile P B request w
  = (Normal {| body := "Failed to delete file: " +:+ m; status := 500;
               headers := corsHeaders P |},
     {| store := s'; calls := calls w ++ [CallDelete (parent +:+ "/" +:+ leaf)];
        pending := pending w |}).
Proof.
  intros Hd Hi Hleaf Hdel Hurl.
  unfold handleDeleteFile, bind, lift, tryCatch, ret, MY_BUCKET_delete,
    waitUntil_cache_delete.
  rewrite Hd. cbv beta iota zeta. rewrite Hi, Hdel. cbv beta iota zeta.
  rewrite (delete_dir_of_nested parent leaf Hleaf), Hurl. reflexivity.
Qed.

(** GET of a stored object whose decoded name holds a NUL, a line feed or
    a carriage return answers nothing: after the store has returned the
    object, building the response throws a [TypeError] on the
    [Content-Disposition] header. *)
Theorem get_throws_on_line_break_in_name (request : Request)
    (filename file_body : string) (s' : S) (w : World S) :
  pathname (url request) <> "/" ->
  JS.decodeURIComponent (JS.slice1 (pathname (url request))) = Normal filename ->
  JS.validHeaderValue filename = false ->
  bucket_get B filename (store w) = (Normal (Some file_body), s') ->
  handleGetFile P B request w
  = (Throw JS.invalidHeaderValue,
     {| store := s'; calls := calls w ++ [CallGet filename];
        pending := pending w |}).
Proof.
  intros Hroot Hd Hvalid Hget.
  unfold handleGetFile, bind, lift, ret, MY_BUCKET_get. rewrite Hd.
  destruct (String.eqb_spec (pathname (url request)) "/") as [E | _];
    [contradiction |].
  now rewrite contentDisposition_valid, Hvalid, Hget.
Qed.

Lemma get_prop_set_prop_other (k k' v : string) (o : JSObject) :
  k <> k' -> get_prop k (set_prop k' v o) = get_prop k o.
Proof.
  intros Hne. unfold get_prop.
  induction o as [|[k0 v0] o IH]; cbn.
  - destruct (String.eqb_spec k' k); [congruence | reflexivity].
  - destruct (String.eqb_spec k0 k') as [-> | Hk0]; cbn.
    + destruct (String.eqb_spec k' k); [congruence | reflexivity].
    + destruct (String.eqb_spec k0 k); [reflexivity | exact IH].
Qed.

Lemma get_prop_spread_absent (k : string) (ext base : JSObject) :
  get_prop k ext = None -> get_prop k (spread base ext) = get_prop k base.
Proof.
  unfold spread. revert base; induction ext as [|[k0 v0] ext IH];
    intros base Hext; [reflexivity |].
  unfold get_prop in Hext. cbn in Hext.
  destruct (String.eqb_spec k0 k) as [-> | Hne]; [discriminate |].
  cbn [fold_left fst snd]. rewrite (IH _ Hext).
  apply get_prop_set_prop_other. congruence.
Qed.

(** GET is read-only: it schedules nothing and makes at most one store
    call, a [get]. *)
Theorem get_is_read_only (request : Request) (w : World S) :
  pending (snd (handleGetFile P B request w)) = pending w
  /\ (calls (snd (handleGetFile P B request w)) = calls w
      \/ exists k,
           calls (snd (handleGetFile P B request w)) = calls w ++ [CallGet k]).
Proof.
  split.
  - unfold handleGetFile, bind, lift, ret, MY_BUCKET_get.
    destruct (JS.decodeURIComponent _) as [k | m]; [| reflexivity].
    destruct (String.eqb _ "/"); [reflexivity |].
    destruct (bucket_get B k (store w)) as [[[file_body |] | m] s];
      try reflexivity.
    cbn. destruct (JS.validHeaderValue _); reflexivity.
  - unfold handleGetFile, bind, lift, ret, MY_BUCKET_get.
    destruct (JS.decodeURIComponent _) as [k | m]; [| now left].
    destruct (String.eqb _ "/"); [now left |].
    right. exists k.
    destruct (bucket_get B k (store w)) as [[[file_body |] | m] s];
      try reflexivity.
    cbn. destruct (JS.validHeaderValue _); reflexivity.
Qed.

(** GET of the path [/] is answered 302 without asking the store, and the
    answer's [Location] is [/dav] when the CORS headers, which are spread
    over it, define no [Location] of their own. *)
Theorem get_root_redirects (request : Request) (w : World S) :
  pathname (url request) = "/" ->
  get_prop "Location" (corsHeaders P) = None ->
  exists response,
    handleGetFile P B request w = (Normal response, w)
    /\ status response = 302
    /\ get_prop "Location" (headers response) = Some "/dav".
Proof.
  intros Hroot Hcors. eexists. split.
  - unfold handleGetFile, bind, lift, ret. now rewrite Hroot.
  - cbn [status headers]. split; [reflexivity |].
    now rewrite get_prop_spread_absent.
Qed.

(** [dumpCache] never calls the store; it schedules exactly one eviction,
    of the root listing of the request's origin, and answers 200, unless
    the URL constructor throws: then it schedules nothing and answers 500
    with the message. *)
Theorem dumpCache_evicts_root_only (request : Request) (w : World S) :
  store (snd (dumpCache P request w)) = store w
  /\ calls (snd (dumpCache P request w)) = calls w
  /\ match newURL P "/" (origin (url request)) with
     | Normal listingUrl =>
         fst (dumpCache P request w)
         = Normal {| body := "cache deleted successfully"; status := 200;
                     headers := corsHeaders P |}
         /\ pending (snd (dumpCache P request w))
            = pending w
              ++ [{| cacheUrl := listingUrl; cacheTtl := Some 604800 |}]
     | Throw m =>
         fst (dumpCache P request w)
         = Normal {| body := "Failed to delete cache: " +:+ m; status := 500;
                     headers := corsHeaders P |}
         /\ pending (snd (dumpCache P request w)) = pending w
     end.
Proof.
  unfold dumpCache, tryCatch, bind, lift, ret, waitUntil_cache_delete.
  destruct (newURL P "/" (origin (url request))); cbn; auto.
Qed.

End ReadBack.

(** ** Bulk upload, whatever the names *)

Section BulkOutcome.

Context {S : Type}.
Variable P : Platform.
Variable B : Bucket S.
Variable request : Request.
Variable root : string.
Hypothesis Hroot : newURL P "/" (href (url request)) = Normal root.

Lemma uploadEntries_outcome (entries : list (string * FormDataEntryValue))
    (results : list JSObject) (w : World S) :
  let files := fileItems entries in
  let stored := storeEach P B root (acceptedPrefix files) w in
  uploadEntries P B request entries results w
  = (Normal match firstRejected files with
            | None =>
                {| body := JSON_stringify (results ++ fst stored); status := 200;
                   headers := bulkHeaders P |}
            | Some f => rejection f
            end,
     snd stored).
Proof.
  revert results w; induction entries as [|[fieldName [v | f]] entries IH];
    intros results w; cbv zeta.
  - cbn. now rewrite app_nil_r.
  - cbn [uploadEntries fileItems]. apply IH.
  - cbn [uploadEntries fileItems acceptedPrefix firstRejected].
    unfold acceptedName.
    destruct (JS.includes (name f) "..") eqn:Hdd; cbn [negb andb];
      [unfold rejection; now rewrite Hdd |].
    destruct (JS.truthy (JS.stripLeadingSlashes (name f))) eqn:Hne;
      cbn [negb]; [| unfold rejection; now rewrite Hdd].
    cbn [storeEach].
    unfold bind at 1, tryCatch at 1, bind at 1, MY_BUCKET_put.
    fold (contentTypeOf P f).
    destruct (bucket_put B _ _ _ (store w)) as [[[] | m] s']; cbn beta iota.
    + unfold tryCatch, bind, lift, waitUntil_cache_delete, ret, called.
      rewrite Hroot. cbn beta iota. rewrite IH. cbn [store calls pending].
      fold (successEntry P f). fold (rootEviction root). fold (putCall P f).
      destruct (storeEach P B root _ _) as [es w']. cbn [fst snd].
      now rewrite <- app_assoc.
    + unfold ret, called. rewrite IH.
      fold (failedEntry f m). fold (putCall P f).
      destruct (storeEach P B root _ _) as [es w']. cbn [fst snd].
      now rewrite <- app_assoc.
Qed.

End BulkOutcome.

(** Bulk upload, for any form: the store receives one put for each file
    item that comes before the first rejected name (a name with ".." or
    empty without its leading slashes), and nothing else; one eviction of
    the root listing is left pending for each of them the store took; the
    answer is 200 with one entry per file item when no name is rejected,
    and otherwise the 400 of the first rejected name. *)
Theorem bulk_upload_outcome :
  forall (S : Type) (P : Platform) (B : Bucket S) (request : Request)
         (root : string) (entries : list (string * FormDataEntryValue))
         (w : World S),
    formData request = Normal entries ->
    newURL P "/" (href (url request)) = Normal root ->
    let files := fileItems entries in
    let stored := storeEach P B root (acceptedPrefix files) w in
    handleMultpleUploads P B request w
    = (Normal match firstRejected files with
              | None =>
                  {| body := JSON_stringify (fst stored); status := 200;
                     headers := bulkHeaders P |}
              | Some f => rejection f
              end,
       snd stored)
    /\ calls (snd stored) = calls w ++ map (putCall P) (acceptedPrefix files)
    /\ pending (snd stored)
       = pending w
         ++ map (fun _ => rootEviction root) (List.filter succeeded (fst stored))
    /\ (firstRejected files = None ->
        acceptedPrefix files = files /\ length (fst stored) = length files).
Proof.
  intros S P B request root entries w Hform Hroot files stored.
  split; [| split; [| split]].
  - unfold handleMultpleUploads, bind, lift. rewrite Hform.
    exact (uploadEntries_outcome P B request root Hroot entries [] w).
  - apply storeEach_calls.
  - apply storeEach_pending.
  - intros Hnone.
    assert (Hall : acceptedPrefix files = files).
    { clear -Hnone. induction files as [|f fs IH]; [reflexivity |].
      cbn in *. destruct (acceptedName f); [| discriminate].
      now rewrite IH. }
    split; [exact Hall |].
    subst stored. rewrite Hall.
    symmetry. exact (Forall2_length _ _ _ (storeEach_reports P B root files w)).
Qed.

(** Bulk upload looks at the file items only: two forms with the same file
    items in the same order, whatever their field names and whatever other
    fields lie between, get the same answer and leave the same world. *)
Theorem bulk_upload_ignores_plain_fields :
  forall (S : Type) (P : Platform) (B : Bucket S) (request1 request2 : Request)
         (root : string) (entries1 entries2 : list (string * FormDataEntryValue))
         (w : World S),
    formData request1 = Normal entries1 ->
    formData request2 = Normal entries2 ->
    href (url request1) = href (url request2) ->
    newURL P "/" (href (url request1)) = Normal root ->
    fileItems entries1 = fileItems entries2 ->
    handleMultpleUploads P B request1 w = handleMultpleUploads P B request2 w.
Proof.
  intros S P B request1 request2 root entries1 entries2 w H1 H2 Hurl Hroot Hfiles.
  assert (Hroot2 : newURL P "/" (href (url request2)) = Normal root)
    by now rewrite <- Hurl.
  unfold handleMultpleUploads, bind, lift. rewrite H1, H2.
  rewrite (uploadEntries_outcome P B request1 root Hroot entries1 [] w).
  rewrite (uploadEntries_outcome P B request2 root Hroot2 entries2 [] w).
  now rewrite Hfiles.
Qed.

Lemma acceptedPrefix_accepted (files : list File) (f : File) :
  In f (acceptedPrefix files) -> acceptedName f = true.
Proof.
  induction files as [|g files IH]; cbn; [contradiction |].
  destruct (acceptedName g) eqn:E; [| contradiction].
  intros [<- | Hin]; [exact E | now apply IH].
Qed.

(** Every key bulk upload hands to the store is non-empty, free of ".."
    and does not start with '/'. *)
Theorem bulk_keys_are_canonical :
  forall (S : Type) (P : Platform) (B : Bucket S) (request : Request)
         (root : string) (entries : list (string * FormDataEntryValue))
         (w : World S) (k data contentType : string),
    formData request = Normal entries ->
    newURL P "/" (href (url request)) = Normal root ->
    In (CallPut k data contentType)
       (calls (snd (handleMultpleUploads P B request w))) ->
    In (CallPut k data contentType) (calls w)
    \/ (k <> "" /\ JS.startsWith k "/" = false /\ JS.includes k ".." = false).
Proof.
  intros S P B request root entries w k data contentType Hform Hroot Hin.
  unfold handleMultpleUploads, bind, lift in Hin. rewrite Hform in Hin.
  rewrite (uploadEntries_outcome P B request root Hroot entries [] w) in Hin.
  cbn [snd] in Hin. rewrite storeEach_calls in Hin.
  apply in_app_or in Hin as [Hin | Hin]; [now left | right].
  apply in_map_iff in Hin as (f & Hf & Hin).
  apply acceptedPrefix_accepted in Hin.
  unfold putCall in Hf. injection Hf as <- _ _.
  unfold acceptedName in Hin. apply andb_true_iff in Hin as [Hdd Hne].
  apply negb_true_iff in Hdd.
  split; [intros E; rewrite E in Hne; discriminate |].
  split; [apply stripLeadingSlashes_no_slash |].
  destruct (JS.includes (JS.stripLeadingSlashes (name f)) "..") eqn:E;
    [| reflexivity].
  apply includes_stripLeadingSlashes in E. congruence.
Qed.

(** ** Listings: prefixes, trailing slashes, failures *)

Section Prefixes.

Lemma startsWith_slash_inv (s : string) :
  JS.startsWith s "/" = true -> exists r, s = String "/" r.
Proof. intros H. apply startsWith_inv in H as [r ->]. now exists r. Qed.

Lemma slice0m1_snoc (p : string) (a : ascii) :
  JS.slice0m1 (p +:+ String a "") = p.
Proof.
  induction p as [|b p IH]; [reflexivity |].
  cbn [String.append JS.slice0m1]. rewrite IH.
  destruct p; reflexivity.
Qed.

Lemma normalizePath_slash_first (p : string) :
  JS.startsWith (normalizePath p) "/" = true.
Proof.
  unfold normalizePath.
  set (q := if negb (JS.startsWith p "/") then "/" +:+ p else p).
  assert (Hq : JS.startsWith q "/" = true).
  { subst q. destruct (JS.startsWith p "/") eqn:E; [exact E | reflexivity]. }
  destruct (JS.endsWith q "/" && negb (String.eqb q "/")) eqn:E; [| exact Hq].
  apply andb_true_iff in E as [_ E]. apply negb_true_iff in E.
  apply startsWith_slash_inv in Hq as [r ->].
  destruct r as [|b r]; [discriminate | reflexivity].
Qed.

End Prefixes.

(** The prefix handed to the store is empty for the root only; any other
    prefix is the normalised path without its leading slash, closed by a
    slash, so a listing of [/a] cannot match the keys of [/ab]. *)
Theorem listing_prefix_shape (p : string) :
  let path := normalizePath p in
  let prefix := listPrefix path in
  (path = "/" /\ prefix = "")
  \/ (path <> "/" /\ prefix <> "" /\ JS.endsWith prefix "/" = true
      /\ (String "/" prefix = path \/ String "/" prefix = path +:+ "/")).
Proof.
  intros path prefix. subst prefix.
  pose proof (normalizePath_slash_first p) as Hs. fold path in Hs.
  apply startsWith_slash_inv in Hs as [r Hr]. rewrite Hr.
  destruct r as [|b r]; [left; split; reflexivity |].
  right. split; [discriminate |].
  unfold listPrefix. cbn [String.eqb Ascii.eqb Bool.eqb JS.slice1 JS.truthy].
  cbn [andb].
  destruct (JS.endsWith (String b r) "/") eqn:E; cbn [negb].
  - split; [discriminate |]. split; [exact E |]. now left.
  - split; [destruct r; discriminate |].
    split; [apply (endsWith_snoc (String b r) "/") |]. now right.
Qed.

Section ListingRuns.

Context {S : Type}.
Variable P : Platform.
Variable B : Bucket S.

(** A listing never throws and never schedules anything: it makes exactly
    one [list] call and answers 207 when the store answers, and 500 with
    an error document around the store's message when the store throws. *)
Theorem fileList_always_answers (request : Request) (w : World S) :
  let prefix := listPrefix (normalizePath (pathname (url request))) in
  let run := handleFileList P B request w in
  calls (snd run) = calls w ++ [CallList prefix]
  /\ pending (snd run) = pending w
  /\ store (snd run) = snd (bucket_list B prefix (store w))
  /\ match fst (bucket_list B prefix (store w)) with
     | Normal _ =>
         match fst run with
         | Normal response => status response = 207
         | Throw _ => False
         end
     | Throw m =>
         fst run
         = Normal {| body :=
                       xmlDeclaration +:+ "<D:error xmlns:D=" +:+ DQ +:+ "DAV:"
                       +:+ DQ +:+ ">" +:+ m +:+ "</D:error>";
                     status := 500;
                     headers :=
                       set_prop "Content-Type" "application/xml"
                         (spread [] (corsHeaders P)) |}
     end.
Proof.
  intros prefix run. subst run prefix.
  unfold handleFileList, tryCatch, bind, MY_BUCKET_list, ret.
  destruct (bucket_list B _ (store w)) as [[lr | m] s]; cbn; auto.
Qed.

(** One trailing slash does not matter: the listings of [p] and of [p/]
    are the same answer and the same store call. *)
Theorem fileList_ignores_one_trailing_slash (request1 request2 : Request)
    (p : string) (w : World S) :
  pathname (url request1) = p ->
  pathname (url request2) = p +:+ "/" ->
  JS.startsWith p "/" = true ->
  JS.endsWith p "/" = false ->
  handleFileList P B request1 w = handleFileList P B request2 w.
Proof.
  intros H1 H2 Hs He.
  assert (N1 : normalizePath p = p).
  { unfold normalizePath. rewrite Hs. cbn [negb]. now rewrite He. }
  assert (N2 : normalizePath (p +:+ "/") = p).
  { unfold normalizePath.
    apply startsWith_slash_inv in Hs as [r ->].
    cbn [String.append JS.startsWith Ascii.eqb Bool.eqb negb].
    change (String "/" (r +:+ "/")) with (String "/" r +:+ "/").
    rewrite (endsWith_snoc (String "/" r) "/").
    replace (String.eqb (String "/" r +:+ "/") "/") with false
      by (cbn; destruct r; reflexivity).
    cbn [negb andb]. apply slice0m1_snoc. }
  unfold handleFileList. now rewrite H1, H2, N1, N2.
Qed.

End ListingRuns.

(** ** Content types *)

Section ContentTypes.



Context {S : Type}.
Variable P : Platform.
Variable B : Bucket S.


End ContentTypes.

(** ** Encoding a path and decoding it again *)

Section RoundTrip.

Lemma hexval_hexdigit (n : N) :
  (n < 16)%N -> JS.hexval (JS.hexdigit n) = Some n.
Proof.
  intros Hn.
  assert (H : In n [0; 1; 2; 3; 4; 5; 6; 7; 8; 9; 10; 11; 12; 13; 14; 15]%N).
  { cbn. lia. }
  cbn in H.
  repeat (destruct H as [<- | H]; [reflexivity |]). contradiction.
Qed.

Lemma escape_hexdigits (n : N) :
  (n < 256)%N ->
  JS.escape "%" (JS.hexdigit (n / 16)) (JS.hexdigit (n mod 16)) = Some n.
Proof.
  intros Hn. unfold JS.escape. cbn [Ascii.eqb Bool.eqb].
  rewrite !hexval_hexdigit.
  - f_equal. rewrite (N.div_mod n 16) at 3 by lia. lia.
  - apply N.mod_lt. lia.
  - apply N.Div0.div_lt_upper_bound. lia.
Qed.

Lemma uriUnescaped_ascii (a : ascii) :
  JS.uriUnescaped a = true ->
  (N_of_ascii a < 128)%N /\ Ascii.eqb a "%" = false.
Proof.
  intros H. split.
  - unfold JS.uriUnescaped, JS.in_range in H.
    rewrite !orb_true_iff, !andb_true_iff, !N.leb_le, !N.eqb_eq in H. lia.
  - destruct (Ascii.eqb_spec a "%") as [-> | _]; [discriminate H | reflexivity].
Qed.

Lemma encodeURI_escaped (a : ascii) (r : string) :
  JS.uriUnescaped a = false ->
  JS.encodeURI (String a r)
  = String "%" (String (JS.hexdigit (N_of_ascii a / 16))
      (String (JS.hexdigit (N_of_ascii a mod 16)) (JS.encodeURI r))).
Proof. intros H. cbn [JS.encodeURI]. now rewrite H. Qed.

Lemma encodeURI_high (a : ascii) (r : string) :
  (128 <= N_of_ascii a)%N ->
  JS.encodeURI (String a r)
  = String "%" (String (JS.hexdigit (N_of_ascii a / 16))
      (String (JS.hexdigit (N_of_ascii a mod 16)) (JS.encodeURI r))).
Proof.
  intros H. apply encodeURI_escaped.
  destruct (JS.uriUnescaped a) eqn:E; [| reflexivity].
  apply uriUnescaped_ascii in E as [E _]. lia.
Qed.

Ltac numeric H :=
  unfold JS.utf8_2, JS.utf8_3, JS.utf8_4, JS.in_range in H;
  repeat (rewrite andb_true_iff in H || rewrite orb_true_iff in H
          || rewrite N.leb_le in H || rewrite N.eqb_eq in H).

Ltac decide_ltb :=
  repeat match goal with
         | |- context [(?x <? ?y)%N] =>
             destruct (N.ltb_spec x y); try lia; cbn [orb]
         end.

Lemma decode_encodeURI_bounded (n : nat) (s : string) :
  (String.length s <= n)%nat ->
  isWellFormed s = true ->
  JS.decodeURIComponent (JS.encodeURI s) = Normal s.
Proof.
  revert s; induction n as [|n IH]; intros s Hn Hwf.
  { destruct s; [reflexivity | cbn in Hn; lia]. }
  destruct s as [|a r]; [reflexivity |].
  cbn [String.length] in Hn. cbn [isWellFormed] in Hwf.
  pose proof (N_ascii_bounded a) as Ha.
  destruct (N.ltb_spec (N_of_ascii a) 128) as [Hlow | Hhigh].
  - (* one byte *)
    assert (Hr : JS.decodeURIComponent (JS.encodeURI r) = Normal r)
      by (apply IH; [lia | exact Hwf]).
    destruct (JS.uriUnescaped a) eqn:Hu.
    + cbn [JS.encodeURI]. rewrite Hu.
      rewrite decodeURIComponent_plain_char
        by (apply uriUnescaped_ascii; exact Hu).
      now rewrite Hr.
    + rewrite (encodeURI_escaped a r Hu).
      cbn [JS.decodeURIComponent Ascii.eqb Bool.eqb negb].
      rewrite (escape_hexdigits _ Ha). decide_ltb.
      rewrite Hr. cbn. now rewrite ascii_N_ascii.
  - (* two to four bytes *)
    destruct r as [|b r2]; [discriminate |].
    pose proof (N_ascii_bounded b) as Hb.
    destruct (JS.utf8_2 (N_of_ascii a) (N_of_ascii b)) eqn:H2.
    + assert (Hr : JS.decodeURIComponent (JS.encodeURI r2) = Normal r2)
        by (apply IH; [cbn in Hn; lia | exact Hwf]).
      pose proof H2 as H2'. numeric H2'.
      rewrite (encodeURI_high a) by lia. rewrite (encodeURI_high b) by lia.
      cbn [JS.decodeURIComponent Ascii.eqb Bool.eqb negb].
      rewrite (escape_hexdigits _ Ha), (escape_hexdigits _ Hb). decide_ltb.
      rewrite H2, Hr. cbn. now rewrite !ascii_N_ascii.
    + destruct r2 as [|c r3]; [discriminate |].
      pose proof (N_ascii_bounded c) as Hc.
      destruct (JS.utf8_3 (N_of_ascii a) (N_of_ascii b) (N_of_ascii c)) eqn:H3.
      * assert (Hr : JS.decodeURIComponent (JS.encodeURI r3) = Normal r3)
          by (apply IH; [cbn in Hn; lia | exact Hwf]).
        pose proof H3 as H3'. numeric H3'.
        rewrite (encodeURI_high a) by lia. rewrite (encodeURI_high b) by lia.
        rewrite (encodeURI_high c) by lia.
        cbn [JS.decodeURIComponent Ascii.eqb Bool.eqb negb].
        rewrite (escape_hexdigits _ Ha), (escape_hexdigits _ Hb),
          (escape_hexdigits _ Hc). decide_ltb.
        rewrite H3, Hr. cbn. now rewrite !ascii_N_ascii.
      * destruct r3 as [|d r4]; [discriminate |].
        pose proof (N_ascii_bounded d) as Hd.
        apply andb_true_iff in Hwf as [H4 Hwf].
        assert (Hr : JS.decodeURIComponent (JS.encodeURI r4) = Normal r4)
          by (apply IH; [cbn in Hn; lia | exact Hwf]).
        pose proof H4 as H4'. numeric H4'.
        rewrite (encodeURI_high a) by lia. rewrite (encodeURI_high b) by lia.
        rewrite (encodeURI_high c) by lia. rewrite (encodeURI_high d) by lia.
        cbn [JS.decodeURIComponent Ascii.eqb Bool.eqb negb].
        rewrite (escape_hexdigits _ Ha), (escape_hexdigits _ Hb),
          (escape_hexdigits _ Hc), (escape_hexdigits _ Hd). decide_ltb.
        rewrite H4, Hr. cbn. now rewrite !ascii_N_ascii.
Qed.

End RoundTrip.

(** [decodeURIComponent] undoes [encodeURI] on every well-formed string:
    the reserved characters [encodeURI] leaves alone are not escapes, and
    every escape it writes, ['%'] included, is read back as the byte it
    stands for. *)
Theorem decode_encodeURI (s : string) :
  isWellFormed s = true ->
  JS.decodeURIComponent (JS.encodeURI s) = Normal s.
Proof. apply (decode_encodeURI_bounded (String.length s)). lia. Qed.

(** ** From a listing back to the object *)

Section Hrefs.

Lemma objectResponse_href (obj : R2Object) :
  JS.includes (objectResponse obj)
    (element "href" (JS.encodeURI ("/" +:+ key obj))) = true.
Proof.
  apply includes_spec.
  exists (LF +:+ "  <D:response>" +:+ LF +:+ "    "),
    (LF +:+ "    <D:propstat>" +:+ LF +:+ "      <D:prop>" +:+ LF +:+
     "        " +:+
     (if JS.endsWith (key obj) "/"
      then "<D:resourcetype><D:collection/></D:resourcetype>"
      else "<D:resourcetype/>") +:+ LF +:+
     "        <D:displayname>" +:+
     JS.or_else (JS.pop (JS.filter_truthy (JS.split "/" (key obj)))) (key obj)
     +:+ "</D:displayname>" +:+ LF +:+
     "        <D:getcontentlength>" +:+ JS.decimal (objSize obj) +:+
     "</D:getcontentlength>" +:+ LF +:+
     "        <D:getlastmodified>" +:+ JS.toUTCString (uploaded obj) +:+
     "</D:getlastmodified>" +:+ LF +:+ "      </D:prop>" +:+ LF +:+
     "      <D:status>HTTP/1.1 200 OK</D:status>" +:+ LF +:+
     "    </D:propstat>" +:+ LF +:+ "  </D:response>").
  unfold objectResponse, element, LF.
  rewrite ?app_assoc_str. cbn [String.append]. reflexivity.
Qed.

Context {S : Type}.
Variable P : Platform.
Variable B : Bucket S.

(** The [href] a listing prints for an object leads back to it when a URL
    parser reads that text back unchanged, which takes a key with no
    leading slash, no ['?'], no ['#'] and no dot segment: on a request
    whose path is that text, GET asks the store for exactly the object's
    key, and so does DELETE when the key has no "..". *)
Theorem listed_href_leads_back (request : Request) (obj : R2Object)
    (w : World S) :
  isWellFormed (key obj) = true ->
  key obj <> "" ->
  survivesURLParser (key obj) = true ->
  pathname (url request) = JS.encodeURI ("/" +:+ key obj) ->
  JS.includes (objectResponse obj) (element "href" (pathname (url request)))
  = true
  /\ calls (snd (handleGetFile P B request w)) = calls w ++ [CallGet (key obj)]
  /\ (if JS.includes (key obj) ".."
      then handleDeleteFile P B request w = (Normal (invalidPath []), w)
      else calls (snd (handleDeleteFile P B request w))
           = calls w ++ [CallDelete (key obj)]).
Proof.
  intros Hwf Hne _ Hpath.
  assert (Henc : JS.encodeURI ("/" +:+ key obj)
                 = String "/" (JS.encodeURI (key obj))) by reflexivity.
  assert (Hd : JS.decodeURIComponent (JS.slice1 (pathname (url request)))
               = Normal (key obj)).
  { rewrite Hpath, Henc. cbn [JS.slice1].
    now apply (decode_encodeURI_bounded (String.length (key obj))). }
  split; [rewrite Hpath; apply objectResponse_href |].
  split.
  - apply (handleGetFile_calls P B request _ w Hd).
    rewrite Hpath, Henc. intros E. injection E as E.
    destruct (key obj) as [|a k]; [contradiction |].
    cbn [JS.encodeURI] in E. destruct (JS.uriUnescaped a); discriminate.
  - destruct (JS.includes (key obj) "..") eqn:Hdd.
    + now apply handleDeleteFile_rejects_dotdot with (filePath := key obj).
    + now apply handleDeleteFile_deletes.
Qed.

(** PUT and DELETE refuse a path whose decoding contains "..": the answer
    is 400 "Invalid path" and neither the store nor the cache is touched. *)
Theorem put_and_delete_reject_traversal (request : Request) (rest k : string)
    (w : World S) :
  pathname (url request) = String "/" rest ->
  JS.decodeURIComponent rest = Normal k ->
  JS.includes k ".." = true ->
  handlePutFile P B request w = (Normal (invalidPath (corsHeaders P)), w)
  /\ handleDeleteFile P B request w = (Normal (invalidPath []), w).
Proof.
  intros Hpath Hd Hdd. split.
  - apply handlePutFile_rejects_dotdot with (filePath := String "/" k).
    + now rewrite Hpath, decodeURIComponent_plain_char, Hd by reflexivity.
    + now rewrite includes_dotdot_slash.
  - apply handleDeleteFile_rejects_dotdot with (filePath := k);
      [now rewrite Hpath | exact Hdd].
Qed.

(** A successful DELETE leaves exactly one eviction pending, of the URL
    built from the directory of the key: what precedes its last slash,
    behind a slash, or [/] alone for a key with no slash. *)
Theorem delete_evicts_parent_listing (request : Request)
    (filePath dir listingUrl : string) (w : World S) (s' : S) :
  JS.decodeURIComponent (JS.slice1 (pathname (url request))) = Normal filePath ->
  JS.includes filePath ".." = false ->
  (exists parent leaf,
     filePath = parent +:+ "/" +:+ leaf /\ JS.includes leaf "/" = false
     /\ dir = "/" +:+ parent)
  \/ (JS.includes filePath "/" = false /\ dir = "/") ->
  bucket_delete B filePath (store w) = (Normal tt, s') ->
  newURL P dir (origin (url request)) = Normal listingUrl ->
  handleDeleteFile P B request w =
    (Normal {| body := "File deleted successfully"; status := 200;
               headers := corsHeaders P |},
     {| store := s'; calls := calls w ++ [CallDelete filePath];
        pending := pending w
                   ++ [{| cacheUrl := listingUrl; cacheTtl := Some 604800 |}] |}).
Proof.
  intros Hd Hdd [(parent & leaf & -> & Hleaf & ->) | [Hflat ->]] Hdel Hurl.
  - now apply handleDeleteFile_evicts_parent.
  - now apply handleDeleteFile_evicts_root.
Qed.

End Hrefs.

(** ** Concrete runs *)

Lemma put_rejects_only_traversal_witness :
  putFilePath "/%20" = Normal (Some " ")
  /\ match fst (handlePutFile refPlatform memBucket (putRequest "/%20" "x")
                  (freshWorld emptyStore)) with
     | Normal response => status response = 201 \/ status response = 500
     | Throw _ => False
     end.
Proof.
  exact (put_rejects_only_traversal refPlatform memBucket
           (putRequest "/%20" "x") "%20" "/ " (freshWorld emptyStore)
           eq_refl eq_refl).
Defined.

Lemma put_key_is_canonical_witness :
  (exists contentType,
     calls (snd (handlePutFile refPlatform memBucket
                   (putRequest "///docs/a.txt" "x") (freshWorld emptyStore)))
     = [CallPut "docs/a.txt" "x" contentType])
  /\ JS.startsWith "docs/a.txt" "/" = false
  /\ JS.includes "docs/a.txt" ".." = false.
Proof.
  exact (put_key_is_canonical refPlatform memBucket
           (putRequest "///docs/a.txt" "x") "docs/a.txt"
           (freshWorld emptyStore) eq_refl).
Defined.

Lemma single_slash_path_names_one_key_witness :
  let request := putRequest "/docs/a%20b.txt" "x" in
  let w := freshWorld emptyStore in
  (exists contentType,
     calls (snd (handlePutFile refPlatform memBucket request w))
     = [CallPut "docs/a b.txt" "x" contentType])
  /\ calls (snd (handleDeleteFile refPlatform memBucket request w))
     = [CallDelete "docs/a b.txt"]
  /\ calls (snd (handleGetFile refPlatform memBucket request w))
     = [CallGet "docs/a b.txt"].
Proof.
  destruct (single_slash_path_names_one_key refPlatform memBucket
              (putRequest "/docs/a%20b.txt" "x") "docs/a%20b.txt"
              "docs/a b.txt" (freshWorld emptyStore)
              eq_refl eq_refl eq_refl eq_refl) as (Hput & Hdel & Hget).
  split; [exact Hput |]. split; [exact Hdel |].
  apply Hget. discriminate.
Defined.

Lemma double_slash_path_names_two_keys_witness :
  let request := putRequest "//a.txt" "x" in
  let w := freshWorld emptyStore in
  (exists contentType,
     calls (snd (handlePutFile refPlatform memBucket request w))
     = [CallPut "a.txt" "x" contentType])
  /\ calls (snd (handleDeleteFile refPlatform memBucket request w))
     = [CallDelete "/a.txt"]
  /\ calls (snd (handleGetFile refPlatform memBucket request w))
     = [CallGet "/a.txt"].
Proof.
  exact (double_slash_path_names_two_keys refPlatform memBucket
           (putRequest "//a.txt" "x") "a.txt" "a.txt" (freshWorld emptyStore)
           eq_refl eq_refl eq_refl eq_refl).
Defined.

Lemma bad_escape_throws_witness :
  let request := putRequest "/%41%zz" "x" in
  let w := freshWorld emptyStore in
  handleGetFile refPlatform memBucket request w = (Throw "URI malformed", w)
  /\ handlePutFile refPlatform memBucket request w = (Throw "URI malformed", w)
  /\ handleDeleteFile refPlatform memBucket request w
     = (Throw "URI malformed", w).
Proof.
  exact (bad_escape_throws refPlatform memBucket (putRequest "/%41%zz" "x")
           "%41" "zz" (freshWorld emptyStore) eq_refl eq_refl).
Defined.

Lemma put_then_get_returns_body_witness :
  let request := putRequest "/docs/a.txt" "hello" in
  match fst (handleGetFile refPlatform memBucket request
               (snd (handlePutFile refPlatform memBucket request
                       (freshWorld emptyStore)))) with
  | Normal response => status response = 200 /\ body response = "hello"
  | Throw _ => False
  end.
Proof.
  apply (put_then_get_returns_body refPlatform memBucket
           (putRequest "/docs/a.txt" "hello") "docs/a.txt" "docs/a.txt"
           (freshWorld emptyStore)
           (snd (mem_put "docs/a.txt" "hello" "text/plain" emptyStore))
           memBucket_readsItsWrites eq_refl);
    [discriminate | reflexivity ..].
Defined.

Lemma delete_then_get_answers_404_witness :
  let request := putRequest "/x/a.txt" "" in
  match fst (handleGetFile refPlatform memBucket request
               (snd (handleDeleteFile refPlatform memBucket request
                       (freshWorld exampleStore)))) with
  | Normal response => status response = 404
  | Throw _ => False
  end.
Proof.
  apply (delete_then_get_answers_404 refPlatform memBucket
           (putRequest "/x/a.txt" "") "x/a.txt" (freshWorld exampleStore)
           (snd (bucket_delete memBucket "x/a.txt" exampleStore))
           memBucket_forgetsItsDeletes);
    [discriminate | reflexivity ..].
Defined.

Lemma put_store_failure_answers_500_witness :
  let request := putRequest "/a.txt" "x" in
  let w := freshWorld (refusing ["a.txt"]) in
  fst (handlePutFile refPlatform memBucket request w)
  = Normal {| body := "Failed to upload file: store unavailable"; status := 500;
              headers := corsHeaders refPlatform |}
  /\ pending (snd (handlePutFile refPlatform memBucket request w)) = [].
Proof.
  exact (put_store_failure_answers_500 refPlatform memBucket
           (putRequest "/a.txt" "x") "a.txt" "store unavailable"
           (refusing ["a.txt"]) (freshWorld (refusing ["a.txt"]))
           eq_refl eq_refl).
Defined.

Lemma delete_store_failure_answers_500_witness :
  let request := putRequest "/a.txt" "" in
  let w := freshWorld tt in
  fst (handleDeleteFile refPlatform brokenBucket request w)
  = Normal {| body := "Failed to delete file: store unavailable";
              status := 500; headers := corsHeaders refPlatform |}
  /\ pending (snd (handleDeleteFile refPlatform brokenBucket request w)) = [].
Proof.
  exact (delete_store_failure_answers_500 refPlatform brokenBucket
           (putRequest "/a.txt" "") "a.txt" "store unavailable" tt
           (freshWorld tt) eq_refl eq_refl eq_refl).
Defined.

Lemma get_throws_on_line_break_in_name_witness :
  let request := putRequest "/a%0Ab.txt" "x" in
  let w := snd (handlePutFile refPlatform memBucket request
                  (freshWorld emptyStore)) in
  fst (handlePutFile refPlatform memBucket request (freshWorld emptyStore))
  = Normal {| body := "File uploaded successfully"; status := 201;
              headers := corsHeaders refPlatform |}
  /\ fst (handleGetFile refPlatform memBucket request w)
     = Throw "Invalid header value.".
Proof.
  split; [reflexivity |].
  pose (w := snd (handlePutFile refPlatform memBucket
                    (putRequest "/a%0Ab.txt" "x") (freshWorld emptyStore))).
  exact (f_equal fst
           (get_throws_on_line_break_in_name refPlatform memBucket
              (putRequest "/a%0Ab.txt" "x") ("a" +:+ LF +:+ "b.txt") "x"
              (store w) w ltac:(discriminate) eq_refl eq_refl eq_refl)).
Defined.

Lemma delete_answers_500_after_deleting_witness :
  fst (handleDeleteFile noURLPlatform memBucket (putRequest "/x/a.txt" "")
         (freshWorld exampleStore))
  = Normal {| body := "Failed to delete file: Invalid URL"; status := 500;
              headers := corsHeaders noURLPlatform |}
  /\ objects (store (snd (handleDeleteFile noURLPlatform memBucket
                            (putRequest "/x/a.txt" "")
                            (freshWorld exampleStore)))) !! "x/a.txt" = None.
Proof.
  rewrite (delete_answers_500_after_deleting noURLPlatform memBucket
             (putRequest "/x/a.txt" "") "x" "a.txt" "Invalid URL"
             (snd (bucket_delete memBucket "x/a.txt" exampleStore))
             (freshWorld exampleStore)
             eq_refl eq_refl eq_refl eq_refl eq_refl).
  split; [reflexivity | vm_compute; reflexivity].
Defined.

Lemma get_root_redirects_witness :
  exists response,
    handleGetFile refPlatform memBucket (putRequest "/" "")
      (freshWorld emptyStore) = (Normal response, freshWorld emptyStore)
    /\ status response = 302
    /\ get_prop "Location" (headers response) = Some "/dav".
Proof.
  exact (get_root_redirects refPlatform memBucket (putRequest "/" "")
           (freshWorld emptyStore) eq_refl eq_refl).
Defined.

Lemma bulk_upload_outcome_witness :
  let entries :=
    [("note", FieldValue "hello");
     ("files", FileValue {| name := "a.txt"; content := "one" |});
     ("files", FileValue {| name := ""; content := "two" |});
     ("files", FileValue {| name := "c.png"; content := "three" |})] in
  let run :=
    handleMultpleUploads refPlatform memBucket (formRequest entries)
      (freshWorld emptyStore) in
  fst run = Normal {| body := "Invalid filename"; status := 400; headers := [] |}
  /\ calls (snd run) = [CallPut "a.txt" "one" "text/plain"]
  /\ pending (snd run) = [{| cacheUrl := "http://h/"; cacheTtl := Some 604800 |}].
Proof.
  destruct (bulk_upload_outcome MemStore refPlatform memBucket
              (formRequest
                 [("note", FieldValue "hello");
                  ("files", FileValue {| name := "a.txt"; content := "one" |});
                  ("files", FileValue {| name := ""; content := "two" |});
                  ("files", FileValue {| name := "c.png"; content := "three" |})])
              "http://h/" _ (freshWorld emptyStore) eq_refl eq_refl)
    as (Hrun & Hcalls & Hpending & _).
  cbv zeta. rewrite Hrun. cbn [fst snd].
  split; [reflexivity |]. split; [exact Hcalls | exact Hpending].
Defined.

Lemma bulk_upload_ignores_plain_fields_witness :
  let file := FileValue {| name := "a.txt"; content := "one" |} in
  handleMultpleUploads refPlatform memBucket
    (formRequest [("note", FieldValue "hello"); ("files", file);
                  ("tag", FieldValue "x")])
    (freshWorld emptyStore)
  = handleMultpleUploads refPlatform memBucket (formRequest [("upload", file)])
      (freshWorld emptyStore).
Proof.
  exact (bulk_upload_ignores_plain_fields MemStore refPlatform memBucket
           (formRequest [("note", FieldValue "hello");
                         ("files", FileValue {| name := "a.txt"; content := "one" |});
                         ("tag", FieldValue "x")])
           (formRequest [("upload", FileValue {| name := "a.txt"; content := "one" |})])
           "http://h/" _ _ (freshWorld emptyStore)
           eq_refl eq_refl eq_refl eq_refl eq_refl).
Defined.

Lemma fileList_ignores_one_trailing_slash_witness :
  handleFileList refPlatform memBucket (putRequest "/x" "")
    (freshWorld exampleStore)
  = handleFileList refPlatform memBucket (putRequest "/x/" "")
      (freshWorld exampleStore).
Proof.
  exact (fileList_ignores_one_trailing_slash refPlatform memBucket
           (putRequest "/x" "") (putRequest "/x/" "") "/x"
           (freshWorld exampleStore) eq_refl eq_refl eq_refl eq_refl).
Defined.


Lemma decode_encodeURI_witness :
  JS.encodeURI "a b/100%.txt" = "a%20b/100%25.txt"
  /\ JS.decodeURIComponent "a%20b/100%25.txt" = Normal "a b/100%.txt".
Proof.
  split; [reflexivity |].
  exact (decode_encodeURI "a b/100%.txt" eq_refl).
Defined.

Lemma listed_href_leads_back_witness :
  let obj := {| key := "x/a b.txt"; objSize := 3; uploaded := 0 |} in
  let request := putRequest "/x/a%20b.txt" "" in
  JS.includes (objectResponse obj) "<D:href>/x/a%20b.txt</D:href>" = true
  /\ calls (snd (handleGetFile refPlatform memBucket request
                   (freshWorld emptyStore)))
     = [CallGet "x/a b.txt"]
  /\ calls (snd (handleDeleteFile refPlatform memBucket request
                   (freshWorld emptyStore)))
     = [CallDelete "x/a b.txt"].
Proof.
  exact (listed_href_leads_back refPlatform memBucket
           (putRequest "/x/a%20b.txt" "")
           {| key := "x/a b.txt"; objSize := 3; uploaded := 0 |}
           (freshWorld emptyStore) eq_refl
           ltac:(discriminate) eq_refl eq_refl).
Defined.

Lemma put_and_delete_reject_traversal_witness :
  let request := putRequest "/a%2F..%2Fb" "x" in
  let w := freshWorld emptyStore in
  handlePutFile refPlatform memBucket request w
  = (Normal (invalidPath (corsHeaders refPlatform)), w)
  /\ handleDeleteFile refPlatform memBucket request w
     = (Normal (invalidPath []), w).
Proof.
  exact (put_and_delete_reject_traversal refPlatform memBucket
           (putRequest "/a%2F..%2Fb" "x") "a%2F..%2Fb" "a/../b"
           (freshWorld emptyStore) eq_refl eq_refl eq_refl).
Defined.

Lemma delete_evicts_parent_listing_witness :
  handleDeleteFile refPlatform memBucket (putRequest "/x/sub/a.txt" "")
    (freshWorld emptyStore)
  = (Normal {| body := "File deleted successfully"; status := 200;
               headers := corsHeaders refPlatform |},
     {| store := emptyStore; calls := [CallDelete "x/sub/a.txt"];
        pending := [{| cacheUrl := "http://h/x/sub";
                       cacheTtl := Some 604800 |}] |}).
Proof.
  apply (delete_evicts_parent_listing refPlatform memBucket
           (putRequest "/x/sub/a.txt" "") "x/sub/a.txt" "/x/sub"
           "http://h/x/sub" (freshWorld emptyStore) emptyStore);
    [reflexivity | reflexivity | | vm_compute; reflexivity | reflexivity].
  left. exists "x/sub", "a.txt". repeat split.
Defined.

Lemma handlePutFile_evicts_root_witness :
  let run :=
    handlePutFile refPlatform memBucket (putRequest "/x/sub/a.txt" "data")
      (freshWorld emptyStore) in
  fst run
  = Normal {| body := "File uploaded successfully"; status := 201;
              headers := corsHeaders refPlatform |}
  /\ calls (snd run) = [CallPut "x/sub/a.txt" "data" "text/plain"]
  /\ pending (snd run) = [{| cacheUrl := "http://h/"; cacheTtl := None |}].
Proof.
  cbv zeta.
  rewrite (handlePutFile_evicts_root refPlatform memBucket
             (putRequest "/x/sub/a.txt" "data") "x/sub/a.txt" "http://h/"
             (freshWorld emptyStore)
             (snd (mem_put "x/sub/a.txt" "data" "text/plain" emptyStore))
             eq_refl eq_refl eq_refl).
  repeat split.
Defined.

Lemma bulk_keys_are_canonical_witness :
  "a.txt" <> "" /\ JS.startsWith "a.txt" "/" = false
  /\ JS.includes "a.txt" ".." = false.
Proof.
  destruct (bulk_keys_are_canonical MemStore refPlatform memBucket
              (formRequest
                 [("files", FileValue {| name := "//a.txt"; content := "one" |})])
              "http://h/" _ (freshWorld emptyStore) "a.txt" "one" "text/plain"
              eq_refl eq_refl)
    as [Hold | Hnew]; [vm_compute; auto | destruct Hold | exact Hnew].
Defined.
